(** * Pulse data pipeline ([data/data.py]): classification and rollups

    A shallow embedding of the batch script that joins [domains.csv],
    [inspect.csv], [tls.csv] and [analytics.csv], scores every domain and
    rolls the scores up per agency and globally.

    The script is Python 3 (it calls the builtin [open] with [newline=]),
    so [/] on two ints is true division into a double, [round] on a float
    rounds exact halves to the even integer, and ordering [None] against an
    int raises [TypeError]. Doubles are the binary64 instance of the
    Standard Library's [SpecFloat].

    Conventions of the embedding:
    - a Python [dict] keyed by CSV headers is a [gmap string string];
      [d[k]] is a lookup that raises [KeyError];
    - raised exceptions are the [Err] results of a small error monad;
    - module-level mutable globals are threaded as explicit state;
    - text is [string] (bytes); [str.lower] is modelled on ASCII letters;
    - the builtin [int] is a parameter ([PyInt]) of the classifier and of
      every property of it; the sample records are run with [int] on
      ASCII text ([ascii_int]). *)

From Stdlib Require Import ZArith List String Ascii Bool Lia Sorted Permutation.
From Stdlib Require Import Floats.SpecFloat.
From stdpp Require Import base option list gmap strings fin_maps.

Open Scope Z_scope.
Open Scope string_scope.

(** ** Exceptions and the error monad *)

Inductive exn : Type :=
  | KeyError (key : string)
  | IndexError
  | ValueError (literal : string)
  | TypeError
  | ZeroDivisionError
  | OverflowError.

Inductive result (A : Type) : Type :=
  | OK (a : A)
  | Err (e : exn).
Arguments OK {A} a.
Arguments Err {A} e.

Definition bind {A B} (m : result A) (k : A -> result B) : result B :=
  match m with
  | OK a => k a
  | Err e => Err e
  end.

Notation "x <- m ;; k" := (bind m (fun x => k))
  (at level 100, m at next level, right associativity).

Definition raises {A} (m : result A) : Prop := exists e, m = Err e.

(** [for x in xs: st = body(st, x)], stopping at the first exception. *)
Fixpoint for_each {S A} (body : S -> A -> result S) (xs : list A) (st : S)
  : result S :=
  match xs with
  | [] => OK st
  | x :: rest => st' <- body st x ;; for_each body rest st'
  end.

(** ** Python primitives used by the script *)

(** [a == b] on [str]. *)
Definition str_eq (a b : string) : bool := String.eqb a b.

(** [d[k]] on a [dict] with [str] keys. *)
Definition getitem {V} (d : gmap string V) (k : string) : result V :=
  match d !! k with
  | Some v => OK v
  | None => Err (KeyError k)
  end.

(** [xs[i]] on a [list]. *)
Definition index {A} (xs : list A) (i : nat) : result A :=
  match xs !! i with
  | Some x => OK x
  | None => Err IndexError
  end.

(** [str.lower], on the ASCII letters. *)
Definition lower_ascii (c : ascii) : ascii :=
  let n := nat_of_ascii c in
  if (Nat.leb 65 n && Nat.leb n 90)%bool then ascii_of_nat (n + 32) else c.

Fixpoint lower (s : string) : string :=
  match s with
  | EmptyString => EmptyString
  | String c rest => String (lower_ascii c) (lower rest)
  end.

(** [s.startswith(p)]. *)
Definition startswith (s p : string) : bool := String.prefix p s.

(** *** [int(str)]

    [int] is a builtin of the interpreter, not code of the script. The
    script hands it cells of the scan files, which are arbitrary text, and
    what [int] accepts outside ASCII (Unicode decimal digits and white
    space) is a matter of the interpreter's character tables. The
    embedding therefore takes [int] as a parameter: the classifier and
    every property of it below are stated for any function in its place. *)

Class PyInt : Type := py_int : string -> result Z.

(** [int] on ASCII text, as CPython runs it from 3.11 on: tab, line feed,
    vertical tab, form feed, carriage return and space are stripped from
    both ends, one sign is allowed, and the body is decimal digits in
    which single underscores may separate digits; a body of more than
    [max_str_digits] digits, or anything else, raises [ValueError]. The
    sample records, which are ASCII, are run with it. *)

Definition is_space (c : ascii) : bool :=
  let n := nat_of_ascii c in
  ((Nat.leb 9 n && Nat.leb n 13) || Nat.eqb n 32)%bool.

Definition digit_of (c : ascii) : option Z :=
  let n := nat_of_ascii c in
  if (Nat.leb 48 n && Nat.leb n 57)%bool then Some (Z.of_nat n - 48) else None.

Fixpoint lstrip (s : string) : string :=
  match s with
  | String c rest => if is_space c then lstrip rest else s
  | EmptyString => EmptyString
  end.

Fixpoint rstrip (s : string) : string :=
  match s with
  | EmptyString => EmptyString
  | String c rest =>
      match rstrip rest with
      | EmptyString => if is_space c then EmptyString else String c EmptyString
      | r => String c r
      end
  end.

(** Digits after the first one; [sep] records that the previous character
    was an underscore, which must be followed by a digit. *)
Fixpoint digits_tail (s : string) (acc : Z) (sep : bool) : option Z :=
  match s with
  | EmptyString => if sep then None else Some acc
  | String c rest =>
      match digit_of c with
      | Some d => digits_tail rest (10 * acc + d) false
      | None =>
          if (Ascii.eqb c "_" && negb sep)%bool then digits_tail rest acc true
          else None
      end
  end.

Definition digits (s : string) : option Z :=
  match s with
  | EmptyString => None
  | String c rest =>
      match digit_of c with
      | Some d => digits_tail rest d false
      | None => None
      end
  end.

Definition signed_digits (s : string) : option Z :=
  match s with
  | String "-" rest => Z.opp <$> digits rest
  | String "+" rest => digits rest
  | _ => digits s
  end.

(** The default of [sys.get_int_max_str_digits()]. *)
Definition max_str_digits : nat := 4300.

(** The digits of a literal, leading zeros included, underscores and sign
    not. *)
Fixpoint digit_count (s : string) : nat :=
  match s with
  | EmptyString => O
  | String c rest =>
      match digit_of c with
      | Some _ => S (digit_count rest)
      | None => digit_count rest
      end
  end.

Definition ascii_int (s : string) : result Z :=
  let body := rstrip (lstrip s) in
  match signed_digits body with
  | Some n =>
      if Nat.ltb max_str_digits (digit_count body) then Err (ValueError s)
      else OK n
  | None => Err (ValueError s)
  end.

Definition ascii_python : PyInt := ascii_int.

(** *** Doubles: [int / int], [float * int], [round(float)] *)

Definition prec : Z := 53.
Definition emax : Z := 1024.

(** An int as the operand of [*] with a float: the nearest double (the
    int itself for the literal the script multiplies by). *)
Definition float_of_int (n : Z) : spec_float := binary_normalize prec emax n 0 false.

(** An int as an operand of [/]: the integer itself, as a dyadic with
    exponent 0. *)
Definition exact_int (n : Z) : spec_float :=
  match n with
  | Z0 => S754_zero false
  | Zpos p => S754_finite false p 0
  | Zneg p => S754_finite true p 0
  end.

(** [num / denom] on ints: the double nearest to the exact quotient, ties
    to even, whatever the size of the operands; a quotient beyond the
    doubles raises [OverflowError]. *)
Definition truediv (num denom : Z) : result spec_float :=
  if Z.eqb denom 0 then Err ZeroDivisionError
  else
    match SFdiv prec emax (exact_int num) (exact_int denom) with
    | S754_infinity _ => Err OverflowError
    | q => OK q
    end.

(** [round(x)] with one argument: nearest int, exact halves to even. *)
Definition py_round (x : spec_float) : result Z :=
  match x with
  | S754_zero _ => OK 0
  | S754_infinity _ => Err OverflowError
  | S754_nan => Err (ValueError "nan")
  | S754_finite s m e =>
      let mag :=
        match e with
        | Zneg k =>
            let unit := Z.pow 2 (Zpos k) in
            let q := Z.pos m / unit in
            let r := Z.pos m mod unit in
            match Z.compare (2 * r) unit with
            | Lt => q
            | Gt => q + 1
            | Eq => if Z.even q then q else q + 1
            end
        | _ => Z.pos m * Z.pow 2 e
        end in
      OK (if s then - mag else mag)
  end.

(** [percent] (data.py:500-501). *)
Definition percent (num denom : Z) : result Z :=
  q <- truediv num denom ;;
  py_round (SFmul prec emax q (float_of_int 100)).

(** [x in xs] on a list of [str]. *)
Definition str_in (x : string) (xs : list string) : bool := existsb (str_eq x) xs.

(** [xs.sort()] on a list of [str]: ascending by code point. *)
Fixpoint insert_sorted (x : string) (xs : list string) : list string :=
  match xs with
  | [] => [x]
  | y :: rest => if String.leb x y then x :: xs else y :: insert_sorted x rest
  end.

Definition py_sort (xs : list string) : list string := foldr insert_sorted [] xs.

(** Truthiness of [d.get(k)] when the value, if any, is a [dict]. *)
Definition truthy (o : option (gmap string string)) : bool :=
  match o with
  | Some d => negb (bool_decide (d = ∅))
  | None => false
  end.

(** ** Global data (data.py:51-69) *)

(** One entry of [domain_data]: ['branch'] and ['agency'] are always set,
    ['inspect'], ['tls'] and ['analytics'] are keys added by the loaders. *)
Record domain_rec : Type := DomainRec {
  branch : string;
  agency : string;
  inspect : option (gmap string string);
  tls : option (gmap string string);
  analytics : option (gmap string string)
}.

Record globals : Type := Globals {
  domain_data : gmap string domain_rec;
  agency_data : gmap string (list string);
  domains : list string;
  agencies : list string
}.

Definition empty_globals : globals :=
  {| domain_data := ∅; agency_data := ∅; domains := []; agencies := [] |}.

(** ** [branch_for] (data.py:566-582) *)

Definition legislative_agencies : list string :=
  [ "Library of Congress";
    "The Legislative Branch (Congress)";
    "Government Printing Office";
    "Congressional Office of Compliance" ].

Definition branch_for (agency : string) : string :=
  if str_in agency legislative_agencies then "legislative"
  else if str_in agency ["The Judicial Branch (Courts)"] then "judicial"
  else if str_in agency ["Non-Federal Agency"] then "non-federal"
  else "executive".

(** ** [load_data] (data.py:83-182)

    Each CSV file is the list of rows that [csv.reader] yields. *)

(** Body of the loop over [domains.csv] (data.py:88-117). *)
Definition load_domain_row (g : globals) (row : list string) : result globals :=
  cell <- index row 0 ;;
  if startswith (lower cell) "domain" then OK g
  else
    let domain := lower cell in
    domain_type <- index row 1 ;;
    agency <- index row 2 ;;
    let branch := branch_for agency in
    if negb (str_eq domain_type "Federal Agency") then OK g
    else if str_eq branch "non-federal" then OK g
    else
      let domains' :=
        if str_in domain (domains g) then domains g else (domains g ++ [domain])%list in
      let agencies' :=
        if str_in agency (agencies g) then agencies g
        else (agencies g ++ [agency])%list in
      let agency_data' :=
        if str_in agency (agencies g) then agency_data g
        else <[agency := []]> (agency_data g) in
      members <- getitem agency_data' agency ;;
      OK {| domain_data :=
              <[domain := DomainRec branch agency None None None]> (domain_data g);
            agency_data := <[agency := (members ++ [domain])%list]> agency_data';
            domains := domains';
            agencies := agencies' |}.

(** [for i, cell in enumerate(row): dict_row[headers[i]] = cell]. *)
Fixpoint fill_row (headers : list string) (i : nat) (cells : list string)
    (dict_row : gmap string string) : result (gmap string string) :=
  match cells with
  | [] => OK dict_row
  | cell :: rest =>
      h <- index headers i ;;
      fill_row headers (S i) rest (<[h := cell]> dict_row)
  end.

Definition set_inspect (r : domain_rec) (d : gmap string string) : domain_rec :=
  DomainRec (branch r) (agency r) (Some d) (tls r) (analytics r).
Definition set_tls (r : domain_rec) (d : gmap string string) : domain_rec :=
  DomainRec (branch r) (agency r) (inspect r) (Some d) (analytics r).
Definition set_analytics (r : domain_rec) (d : gmap string string) : domain_rec :=
  DomainRec (branch r) (agency r) (inspect r) (tls r) (Some d).

Definition with_domain_data (g : globals) (dd : gmap string domain_rec) : globals :=
  {| domain_data := dd; agency_data := agency_data g;
     domains := domains g; agencies := agencies g |}.

(** The loops over the scan files carry [headers] next to the globals. *)
Definition loader : Type := (list string * globals)%type.

(** Body of the loop over [inspect.csv] (data.py:125-138). *)
Definition load_inspect_row (st : loader) (row : list string) : result loader :=
  let '(headers, g) := st in
  cell <- index row 0 ;;
  if str_eq (lower cell) "domain" then OK (row, g)
  else
    let domain := lower cell in
    match domain_data g !! domain with
    | None => OK st
    | Some r =>
        dict_row <- fill_row headers 0 row ∅ ;;
        OK (headers, with_domain_data g (<[domain := set_inspect r dict_row]> (domain_data g)))
    end.

(** Body of the loop over [tls.csv] (data.py:142-157). *)
Definition load_tls_row (st : loader) (row : list string) : result loader :=
  let '(headers, g) := st in
  cell <- index row 0 ;;
  if str_eq (lower cell) "domain" then OK (row, g)
  else
    let domain := lower cell in
    match domain_data g !! domain with
    | None => OK st
    | Some r =>
        dict_row <- fill_row headers 0 row ∅ ;;
        OK (headers, with_domain_data g (<[domain := set_tls r dict_row]> (domain_data g)))
    end.

(** Body of the loop over [analytics.csv] (data.py:163-182). *)
Definition load_analytics_row (st : loader) (row : list string) : result loader :=
  let '(headers, g) := st in
  cell <- index row 0 ;;
  if str_eq (lower cell) "domain" then OK (row, g)
  else
    let domain := lower cell in
    match domain_data g !! domain with
    | None => OK st
    | Some r =>
        if negb (truthy (inspect r)) then OK st
        else
          dict_row <- fill_row headers 0 row ∅ ;;
          OK (headers,
              with_domain_data g (<[domain := set_analytics r dict_row]> (domain_data g)))
    end.

Definition sort_globals (g : globals) : globals :=
  {| domain_data := domain_data g; agency_data := agency_data g;
     domains := py_sort (domains g); agencies := py_sort (agencies g) |}.

Definition load_data (domains_csv inspect_csv tls_csv analytics_csv : list (list string))
  : result globals :=
  g <- for_each load_domain_row domains_csv empty_globals ;;
  let g := sort_globals g in
  st <- for_each load_inspect_row inspect_csv ([], g) ;;
  st <- for_each load_tls_row tls_csv ([], st.2) ;;
  st <- for_each load_analytics_row analytics_csv ([], st.2) ;;
  OK st.2.

(** ** Eligibility (data.py:262-276) *)

Definition evaluating_for_https (g : globals) (domain : string) : result bool :=
  r <- getitem (domain_data g) domain ;;
  match inspect r with
  | None => OK false
  | Some i => live <- getitem i "Live" ;; OK (str_eq live "True")
  end.

Definition evaluating_for_analytics (g : globals) (domain : string) : result bool :=
  r <- getitem (domain_data g) domain ;;
  match inspect r with
  | None => OK false
  | Some i =>
      match analytics r with
      | None => OK false
      | Some _ =>
          live <- getitem i "Live" ;;
          if negb (str_eq live "True") then OK false
          else
            redirect <- getitem i "Redirect" ;;
            if negb (str_eq redirect "False") then OK false
            else OK (str_eq (branch r) "executive")
      end
  end.

(** ** Rows of the per-domain tables

    A row is a [dict] whose keys are fixed by the script: ["Domain"],
    ["Canonical"], ["Agency"] and the [LABELS] entries. *)

Record https_row : Type := HttpsRow {
  row_domain : string;
  row_canonical : string;
  row_agency : string;
  row_https : Z;                 (* LABELS['https'] *)
  row_https_forced : Z;          (* LABELS['https_forced'] *)
  row_hsts : Z;                  (* LABELS['hsts'] *)
  row_hsts_age : option Z;       (* LABELS['hsts_age'] *)
  row_grade : Z;                 (* LABELS['grade'] *)
  row_fs : option Z;             (* LABELS['fs'] *)
  row_sig : option string;       (* LABELS['sig'] *)
  row_rc4 : option bool;         (* LABELS['rc4'] *)
  row_ssl3 : option bool;        (* LABELS['ssl3'] *)
  row_tls12 : option bool        (* LABELS['tls12'] *)
}.

Record analytics_row : Type := AnalyticsRow {
  arow_domain : string;
  arow_canonical : string;
  arow_agency : string;
  row_dap : Z                    (* LABELS['dap'] *)
}.

(** ** [https_row_for] (data.py:278-443), section by section *)

Section Classifier.

(** The interpreter's [int]. *)
Context {python_int : PyInt}.

(** "Is it there?" (data.py:290-298). *)
Definition https_of (i : gmap string string) : result Z :=
  downgrades <- getitem i "Downgrades HTTPS" ;;
  if str_eq downgrades "True" then OK 0
  else
    valid <- getitem i "Valid HTTPS" ;;
    if str_eq valid "True" then OK 2
    else
      bad_chain <- getitem i "HTTPS Bad Chain" ;;
      if str_eq bad_chain "True" then OK 1 else OK (-1).

(** The test of the "Yes (Strict)" branch (data.py:317-323). *)
Definition strict_test (i : gmap string string) : result bool :=
  strictly <- getitem i "Strictly Forces HTTPS" ;;
  if str_eq strictly "True" then
    defaults <- getitem i "Defaults to HTTPS" ;;
    if str_eq defaults "True" then OK true
    else redirect <- getitem i "Redirect" ;; OK (str_eq redirect "True")
  else OK false.

(** The test of the "Yes" branch (data.py:327-330). *)
Definition default_test (i : gmap string string) : result bool :=
  strictly <- getitem i "Strictly Forces HTTPS" ;;
  if str_eq strictly "False" then
    defaults <- getitem i "Defaults to HTTPS" ;; OK (str_eq defaults "True")
  else OK false.

(** "Is HTTPS enforced?" (data.py:306-337). *)
Definition behavior_of (i : gmap string string) (https : Z) : result Z :=
  if Z.leb https 0 then OK 0
  else
    strict <- strict_test i ;;
    if strict then OK 3
    else
      yes <- default_test i ;;
      if yes then OK 2 else OK 1.

(** The raw max-age (data.py:345-348): a non-empty cell goes through
    [int], an empty one is [None]. *)
Definition hsts_age_of (i : gmap string string) : result (option Z) :=
  cell <- getitem i "HSTS Max Age" ;;
  if negb (str_eq cell "") then n <- py_int cell ;; OK (Some n)
  else OK None.

(** [hsts_age < 10886400] (data.py:377): [None] cannot be ordered. *)
Definition below_threshold (hsts_age : option Z) : result bool :=
  match hsts_age with
  | Some n => OK (Z.ltb n 10886400)
  | None => Err TypeError
  end.

(** The HSTS ladder (data.py:351-388). *)
Definition hsts_of (i : gmap string string) (https : Z) (hsts_age : option Z)
  : result Z :=
  if Z.leb https 0 then OK (-1)
  else
    header <- getitem i "HSTS" ;;
    if str_eq header "False" then OK 0
    else
      preload <- getitem i "HSTS Preload Ready" ;;
      if str_eq preload "True" then OK 3
      else
        weak <- below_threshold hsts_age ;;
        if weak then OK 0
        else
          subdomains <- getitem i "HSTS All Subdomains" ;;
          if str_eq subdomains "True" then OK 2 else OK 1.

(** The literal grade table (data.py:415-423). *)
Definition grade_table : gmap string Z :=
  list_to_map
    [("F", 0); ("T", 1); ("C", 2); ("B", 3); ("A-", 4); ("A", 5); ("A+", 6)].

(** [boolean_for] (data.py:547-551). *)
Definition boolean_for (s : string) : bool :=
  if str_eq s "False" then false else true.

(** [boolean_nice] (data.py:503-509). *)
Definition boolean_nice (value : string) : Z :=
  if str_eq value "True" then 1
  else if str_eq value "False" then 0
  else -1.

(** What the TLS section contributes to the row. *)
Record tls_part : Type := TlsPart {
  grade : Z;
  fs : option Z;
  sig : option string;
  rc4 : option bool;
  ssl3 : option bool;
  tls12 : option bool
}.

Definition no_tls : tls_part := TlsPart (-1) None None None None None.

(** "Include the SSL Labs grade" (data.py:397-434). *)
Definition tls_part_of (https : Z) (tls : option (gmap string string))
  : result tls_part :=
  if Z.leb https 0 then OK no_tls
  else
    match tls with
    | None => OK no_tls
    | Some t =>
        letter <- getitem t "Grade" ;;
        grade <- getitem grade_table letter ;;
        secrecy <- getitem t "Forward Secrecy" ;;
        fs <- py_int secrecy ;;
        sig <- getitem t "Signature Algorithm" ;;
        rc4 <- getitem t "RC4" ;;
        ssl3 <- getitem t "SSLv3" ;;
        tls12 <- getitem t "TLSv1.2" ;;
        OK (TlsPart grade (Some fs) (Some sig) (Some (boolean_for rc4))
              (Some (boolean_for ssl3)) (Some (boolean_for tls12)))
    end.

(** [d[k]] for one of the sub-record keys of a [domain_data] entry. *)
Definition subrecord (key : string) (o : option (gmap string string))
  : result (gmap string string) :=
  match o with
  | Some d => OK d
  | None => Err (KeyError key)
  end.

Definition https_row_for (g : globals) (domain : string) : result https_row :=
  r <- getitem (domain_data g) domain ;;
  i <- subrecord "inspect" (inspect r) ;;
  canonical <- getitem i "Canonical" ;;
  https <- https_of i ;;
  behavior <- behavior_of i https ;;
  hsts_age <- hsts_age_of i ;;
  hsts <- hsts_of i https hsts_age ;;
  t <- tls_part_of https (tls r) ;;
  OK {| row_domain := domain; row_canonical := canonical; row_agency := agency r;
        row_https := https; row_https_forced := behavior;
        row_hsts := hsts; row_hsts_age := hsts_age;
        row_grade := grade t; row_fs := fs t; row_sig := sig t;
        row_rc4 := rc4 t; row_ssl3 := ssl3 t; row_tls12 := tls12 t |}.

(** ** [analytics_row_for] (data.py:446-459) *)

Definition analytics_row_for (g : globals) (domain : string) : result analytics_row :=
  r <- getitem (domain_data g) domain ;;
  a <- subrecord "analytics" (analytics r) ;;
  i <- subrecord "inspect" (inspect r) ;;
  canonical <- getitem i "Canonical" ;;
  participates <- getitem a "Participates in Analytics" ;;
  OK {| arow_domain := domain; arow_canonical := canonical; arow_agency := agency r;
        row_dap := boolean_nice participates |}.

(** ** [process_domains] (data.py:186-259) *)

Record https_agency_row : Type := HttpsAgencyRow {
  ha_agency : string;            (* 'Agency' *)
  ha_number : Z;                 (* 'Number of Domains' *)
  ha_https : Z;                  (* LABELS['https'] *)
  ha_https_forced : Z;           (* LABELS['https_forced'] *)
  ha_hsts : Z;                   (* LABELS['hsts'] *)
  ha_grade : Z                   (* LABELS['grade_agencies'] *)
}.

Record analytics_agency_row : Type := AnalyticsAgencyRow {
  aa_agency : string;            (* 'Agency' *)
  aa_number : Z;                 (* 'Number of Domains' *)
  aa_dap : Z                     (* LABELS['dap'] *)
}.

(** The four output lists the passes append to. *)
Record tables : Type := Tables {
  https_domains : list https_row;
  analytics_domains : list analytics_row;
  https_agencies : list https_agency_row;
  analytics_agencies : list analytics_agency_row
}.

Definition empty_tables : tables := Tables [] [] [] [].

(** Body of the first loop (data.py:189-194). *)
Definition domain_pass (g : globals) (t : tables) (domain : string) : result tables :=
  eligible <- evaluating_for_https g domain ;;
  t <- (if eligible : bool then
          row <- https_row_for g domain ;;
          OK (Tables (https_domains t ++ [row])%list (analytics_domains t)
                (https_agencies t) (analytics_agencies t))
        else OK t) ;;
  eligible <- evaluating_for_analytics g domain ;;
  if eligible : bool then
    row <- analytics_row_for g domain ;;
    OK (Tables (https_domains t) (analytics_domains t ++ [row])%list
          (https_agencies t) (analytics_agencies t))
  else OK t.

(** The locals of one agency iteration: [https_total], the four entries
    of [https_stats], [analytics_total] and [analytics_stats['dap']]. *)
Record counters : Type := Counters {
  https_total : Z;
  n_https : Z;
  n_https_forced : Z;
  n_hsts : Z;
  n_grade : Z;
  analytics_total : Z;
  n_dap : Z
}.

Definition zero_counters : counters := Counters 0 0 0 0 0 0 0.

Definition bump (test : bool) (n : Z) : Z := if test then n + 1 else n.

(** Body of the loop over one agency's domains (data.py:212-242). *)
Definition count_member (g : globals) (c : counters) (domain : string)
  : result counters :=
  eligible <- evaluating_for_https g domain ;;
  c <- (if eligible : bool then
          row <- https_row_for g domain ;;
          OK (Counters (https_total c + 1)
                (bump (Z.geb (row_https row) 1) (n_https c))
                (bump (Z.geb (row_https_forced row) 2) (n_https_forced c))
                (bump (Z.geb (row_hsts row) 1) (n_hsts c))
                (bump (Z.geb (row_grade row) 4) (n_grade c))
                (analytics_total c) (n_dap c))
        else OK c) ;;
  eligible <- evaluating_for_analytics g domain ;;
  if eligible : bool then
    row <- analytics_row_for g domain ;;
    OK (Counters (https_total c) (n_https c) (n_https_forced c) (n_hsts c)
          (n_grade c) (analytics_total c + 1)
          (bump (Z.geb (row_dap row) 1) (n_dap c)))
  else OK c.

(** The two rows an agency may contribute (data.py:244-259). *)
Definition https_rollup (agency : string) (c : counters)
  : result (option https_agency_row) :=
  if Z.gtb (https_total c) 0 then
    p_https <- percent (n_https c) (https_total c) ;;
    p_forced <- percent (n_https_forced c) (https_total c) ;;
    p_hsts <- percent (n_hsts c) (https_total c) ;;
    p_grade <- percent (n_grade c) (https_total c) ;;
    OK (Some (HttpsAgencyRow agency (https_total c) p_https p_forced p_hsts p_grade))
  else OK None.

Definition analytics_rollup (agency : string) (c : counters)
  : result (option analytics_agency_row) :=
  if Z.gtb (analytics_total c) 0 then
    p_dap <- percent (n_dap c) (analytics_total c) ;;
    OK (Some (AnalyticsAgencyRow agency (analytics_total c) p_dap))
  else OK None.

(** Body of the second loop (data.py:197-259). *)
Definition agency_pass (g : globals) (t : tables) (agency : string) : result tables :=
  members <- getitem (agency_data g) agency ;;
  c <- for_each (count_member g) members zero_counters ;;
  h <- https_rollup agency c ;;
  let t := Tables (https_domains t) (analytics_domains t)
             (https_agencies t ++ option_list h)%list (analytics_agencies t) in
  a <- analytics_rollup agency c ;;
  OK (Tables (https_domains t) (analytics_domains t)
        (https_agencies t) (analytics_agencies t ++ option_list a)%list).

Definition process_domains (g : globals) : result tables :=
  t <- for_each (domain_pass g) (domains g) empty_tables ;;
  for_each (agency_pass g) (agencies g) t.

(** ** [process_stats] (data.py:462-497) *)

(** A cell of the small CSV tables handed to the writer. *)
Inductive cell : Type :=
  | Str (s : string)
  | Int (n : Z).

Definition stats_table (pct : Z) : list (list cell) :=
  [ [Str "status"; Str "value"];
    [Str "active"; Int pct];
    [Str "inactive"; Int (100 - pct)] ].

(** The counting loop of the HTTPS half (data.py:466-475). *)
Definition https_enabled (rows : list https_row) : Z :=
  fold_left
    (fun enabled row =>
       bump (Z.geb (row_https row) 1 && Z.geb (row_https_forced row) 1) enabled)
    rows 0.

(** The counting loop of the analytics half (data.py:486-490). *)
Definition analytics_enabled (rows : list analytics_row) : Z :=
  fold_left (fun enabled row => bump (Z.geb (row_dap row) 1) enabled) rows 0.

(** The HTTPS half (data.py:465-483). *)
Definition https_summary (rows : list https_row) : result (list (list cell)) :=
  let total := Z.of_nat (length rows) in
  pct <- percent (https_enabled rows) total ;;
  OK (stats_table pct).

(** The analytics half (data.py:485-497). *)
Definition analytics_summary (rows : list analytics_row) : result (list (list cell)) :=
  let total := Z.of_nat (length rows) in
  pct <- percent (analytics_enabled rows) total ;;
  OK (stats_table pct).

(** [process_stats]: the new values of [https_stats] and [analytics_stats]. *)
Definition process_stats (t : tables)
  : result (list (list cell) * list (list cell)) :=
  https_stats <- https_summary (https_domains t) ;;
  analytics_stats <- analytics_summary (analytics_domains t) ;;
  OK (https_stats, analytics_stats).

(** ** [run] (data.py:74-79), up to the writers *)

Definition run (domains_csv inspect_csv tls_csv analytics_csv : list (list string))
  : result (tables * (list (list cell) * list (list cell))) :=
  g <- load_data domains_csv inspect_csv tls_csv analytics_csv ;;
  t <- process_domains g ;;
  s <- process_stats t ;;
  OK (t, s).

(** * Notions the properties are stated with *)

(** [p] is an integer nearest to [100 * n / d]. *)
Definition nearest_percent (n d p : Z) : Prop := 2 * Z.abs (100 * n - d * p) <= d.





(** The integers [0], ..., [k - 1]. *)
Definition upto (k : nat) : list Z := map Z.of_nat (seq 0 k).

(** [percent n d] returns an integer nearest to [100 * n / d]. *)
Definition percent_okb (n d : Z) : bool :=
  match percent n d with
  | OK p => Z.leb (2 * Z.abs (100 * n - d * p)) d
  | Err _ => false
  end.

(** [percent_okb n d] for all [0 <= n <= d] with [0 < d <= bound]. *)
Definition percent_table_ok (bound : nat) : bool :=
  forallb (fun k => forallb (fun n => percent_okb n (1 + k)) (upto (Z.to_nat (2 + k))))
    (upto bound).

(** The seven recognized grade letters. *)
Definition grade_letters : list string := ["F"; "T"; "C"; "B"; "A-"; "A"; "A+"].

(** How many rows pass a test. *)
Definition count_where {A} (test : A -> bool) (rows : list A) : Z :=
  Z.of_nat (length (List.filter test rows)).

(** What one occurrence of a member domain contributes to the HTTPS
    track: its row when it is eligible, nothing otherwise. *)
Definition https_occurrence (g : globals) (domain : string) (h : option https_row)
  : Prop :=
  match h with
  | Some row =>
      evaluating_for_https g domain = OK true /\ https_row_for g domain = OK row
  | None => evaluating_for_https g domain = OK false
  end.

(** The same for the analytics track. *)
Definition analytics_occurrence (g : globals) (domain : string)
    (a : option analytics_row) : Prop :=
  match a with
  | Some row =>
      evaluating_for_analytics g domain = OK true /\
      analytics_row_for g domain = OK row
  | None => evaluating_for_analytics g domain = OK false
  end.

(** The rows of the eligible occurrences, in member order. *)
Definition eligible_rows {A} (occurrences : list (option A)) : list A :=
  omap id occurrences.

(** Every agency seen so far has its list in [agency_data]. *)
Definition agencies_listed (g : globals) : Prop :=
  forall a, In a (agencies g) -> is_Some (agency_data g !! a).

(** A property of every entry of [domain_data]. *)
Definition records_satisfy (P : domain_rec -> Prop) (g : globals) : Prop :=
  forall d r, domain_data g !! d = Some r -> P r.

(** Ascending in the order [list.sort] uses on [str]. *)
Definition ascending (xs : list string) : Prop :=
  Sorted (fun x y => String.leb x y = true) xs.

(** What [load_data] keeps true of the four globals together. *)
Record registry_wf (g : globals) : Prop := RegistryWf {
  wf_domains_nodup : List.NoDup (domains g);
  wf_agencies_nodup : List.NoDup (agencies g);
  wf_domain_keys : forall d, In d (domains g) <-> is_Some (domain_data g !! d);
  wf_agency_keys : forall a, In a (agencies g) <-> is_Some (agency_data g !! a);
  wf_members :
    forall a members, agency_data g !! a = Some members ->
      members <> [] /\ forall d, In d members -> In d (domains g);
  wf_listed :
    forall d r, domain_data g !! d = Some r ->
      exists members, agency_data g !! agency r = Some members /\ In d members
}.

(** [g'] differs from [g] at most in the sub-records attached to domains. *)
Definition same_skeleton (g g' : globals) : Prop :=
  domains g' = domains g /\ agencies g' = agencies g /\
  agency_data g' = agency_data g /\
  forall d,
    match domain_data g !! d, domain_data g' !! d with
    | Some r, Some r' => branch r' = branch r /\ agency r' = agency r
    | None, None => True
    | _, _ => False
    end.
(** What the domains loop keeps true of every key and its record. *)
Definition key_rule (g : globals) : Prop :=
  forall d r, domain_data g !! d = Some r ->
    lower d = d /\ startswith d "domain" = false /\
    branch r = branch_for (agency r) /\ branch r <> "non-federal".

(** The row of [domains.csv] passes the three filters of the loop. *)
Definition accepted (row : list string) : bool :=
  match row with
  | name :: domain_type :: a :: _ =>
      negb (startswith (lower name) "domain")
      && str_eq domain_type "Federal Agency"
      && negb (str_eq (branch_for a) "non-federal")
  | _ => false
  end.

(** The domains of the accepted rows that name agency [a], in file order. *)
Definition accepted_under (a : string) (rows : list (list string)) : list string :=
  flat_map
    (fun row =>
       if accepted row && str_eq (nth 2 row "") a then [lower (nth 0 row "")] else [])
    rows.

(** A test that evaluated to [True] (and did not raise). *)
Definition yes (m : result bool) : bool :=
  match m with
  | OK true => true
  | _ => false
  end.

(** The listed domains that test eligible for the HTTPS track. *)
Definition https_eligible (g : globals) (ds : list string) : list string :=
  List.filter (fun d => yes (evaluating_for_https g d)) ds.

(** The listed domains that test eligible for the analytics track. *)
Definition analytics_eligible (g : globals) (ds : list string) : list string :=
  List.filter (fun d => yes (evaluating_for_analytics g d)) ds.
(** The members of an agency, none when it has no list. *)
Definition members_of (g : globals) (a : string) : list string :=
  default [] (agency_data g !! a).



(** A list with at least one element. *)
Definition nonempty {A} (xs : list A) : bool :=
  match xs with
  | [] => false
  | _ :: _ => true
  end.

(** [row] is the HTTPS rollup row of agency [a] for the counters [c]. *)
Definition https_rollup_of (a : string) (c : counters) (row : https_agency_row) : Prop :=
  ha_agency row = a /\ ha_number row = https_total c /\
  percent (n_https c) (https_total c) = OK (ha_https row) /\
  percent (n_https_forced c) (https_total c) = OK (ha_https_forced row) /\
  percent (n_hsts c) (https_total c) = OK (ha_hsts row) /\
  percent (n_grade c) (https_total c) = OK (ha_grade row).

Definition analytics_rollup_of (a : string) (c : counters) (row : analytics_agency_row)
  : Prop :=
  aa_agency row = a /\ aa_number row = analytics_total c /\
  percent (n_dap c) (analytics_total c) = OK (aa_dap row).

(** [row] is the rollup row of [a] for the counters its members give. *)
Definition https_rollup_row (g : globals) (a : string) (row : https_agency_row) : Prop :=
  exists c,
    for_each (count_member g) (members_of g a) zero_counters = OK c /\
    https_rollup_of a c row.

Definition analytics_rollup_row (g : globals) (a : string) (row : analytics_agency_row)
  : Prop :=
  exists c,
    for_each (count_member g) (members_of g a) zero_counters = OK c /\
    analytics_rollup_of a c row.

(** What the counting loop keeps true of the counters. *)
Definition counters_ok (c : counters) : Prop :=
  0 <= n_https_forced c <= n_https c /\
  0 <= n_hsts c <= n_https c /\
  0 <= n_grade c <= n_https c /\
  n_https c <= https_total c /\
  0 <= n_dap c <= analytics_total c /\
  analytics_total c <= https_total c.

(** ** Sample records *)

Definition inspect_fields
    (live redirect downgrades valid bad_chain strictly defaults
     hsts preload subdomains max_age : string) : gmap string string :=
  list_to_map
    [ ("Domain", "a.gov"); ("Canonical", "https://a.gov");
      ("Live", live); ("Redirect", redirect);
      ("Downgrades HTTPS", downgrades); ("Valid HTTPS", valid);
      ("HTTPS Bad Chain", bad_chain);
      ("Strictly Forces HTTPS", strictly); ("Defaults to HTTPS", defaults);
      ("HSTS", hsts); ("HSTS Preload Ready", preload);
      ("HSTS All Subdomains", subdomains); ("HSTS Max Age", max_age) ].

(** Live, valid HTTPS, strictly enforced, HSTS header present. *)
Definition hsts_inspect (preload subdomains max_age : string) : gmap string string :=
  inspect_fields "True" "False" "False" "True" "False" "True" "True"
    "True" preload subdomains max_age.

Definition tls_fields (letter : string) : gmap string string :=
  list_to_map
    [ ("Domain", "a.gov"); ("Grade", letter); ("Forward Secrecy", "2");
      ("Signature Algorithm", "SHA256withRSA");
      ("RC4", "False"); ("SSLv3", "False"); ("TLSv1.2", "True") ].

Definition analytics_fields (participates : string) : gmap string string :=
  list_to_map [ ("Domain", "a.gov"); ("Participates in Analytics", participates) ].

(** A registry holding the single executive domain [a.gov] of ["NASA"]. *)
Definition one_domain (i t a : option (gmap string string)) : globals :=
  {| domain_data := {[ "a.gov" := DomainRec "executive" "NASA" i t a ]};
     agency_data := {[ "NASA" := ["a.gov"] ]};
     domains := ["a.gov"];
     agencies := ["NASA"] |}.

(** A one-domain [domains.csv] and the header rows of the scan files. *)
Definition domains_csv_sample : list (list string) :=
  [ ["Domain Name"; "Domain Type"; "Agency"];
    ["a.gov"; "Federal Agency"; "NASA"] ].

Definition inspect_header : list string :=
  [ "Domain"; "Canonical"; "Live"; "Redirect"; "Downgrades HTTPS"; "Valid HTTPS";
    "HTTPS Bad Chain"; "Strictly Forces HTTPS"; "Defaults to HTTPS"; "HSTS";
    "HSTS Preload Ready"; "HSTS All Subdomains"; "HSTS Max Age" ].

Definition tls_header : list string :=
  [ "Domain"; "Grade"; "Forward Secrecy"; "Signature Algorithm"; "RC4"; "SSLv3";
    "TLSv1.2" ].

Definition analytics_header : list string := ["Domain"; "Participates in Analytics"].

(** The three scan files for the single domain of [domains_csv_sample]. *)
Definition sample_inspect_csv : list (list string) :=
  [ inspect_header;
    [ "a.gov"; "https://a.gov"; "True"; "False"; "False"; "True"; "False";
      "True"; "True"; "True"; "False"; "True"; "31536000" ] ].

Definition sample_tls_csv : list (list string) :=
  [ tls_header; [ "a.gov"; "A-"; "2"; "SHA256withRSA"; "False"; "False"; "True" ] ].

Definition sample_analytics_csv : list (list string) :=
  [ analytics_header; ["a.gov"; "True"] ].

(** What [load_data] and [process_domains] make of them. *)
Definition sample_registry : globals :=
  one_domain (Some (hsts_inspect "False" "True" "31536000"))
    (Some (tls_fields "A-")) (Some (analytics_fields "True")).

Definition sample_row : https_row :=
  HttpsRow "a.gov" "https://a.gov" "NASA" 2 3 2 (Some 31536000) 4
    (Some 2) (Some "SHA256withRSA") (Some false) (Some false) (Some true).

Definition sample_tables : tables :=
  Tables [sample_row] [AnalyticsRow "a.gov" "https://a.gov" "NASA" 1]
    [HttpsAgencyRow "NASA" 1 100 100 100 100] [AnalyticsAgencyRow "NASA" 1 100].

(** * Properties *)

(** ** Reasoning about the error monad *)

Lemma bind_OK {A B} (m : result A) (k : A -> result B) (b : B) :
  bind m k = OK b -> exists a, m = OK a /\ k a = OK b.
Proof. destruct m as [a|e]; simpl; [eauto | discriminate]. Qed.

Lemma bind_raises {A B} (m : result A) (k : A -> result B) :
  raises m -> raises (bind m k).
Proof. intros [e ->]. exists e. reflexivity. Qed.

Lemma bind_raises_k {A B} (m : result A) (k : A -> result B) :
  (forall a, m = OK a -> raises (k a)) -> raises (bind m k).
Proof. destruct m as [a|e]; simpl; [auto | intros _; exists e; reflexivity]. Qed.

Lemma getitem_OK {V} (d : gmap string V) (k : string) (v : V) :
  getitem d k = OK v <-> d !! k = Some v.
Proof.
  unfold getitem. destruct (d !! k); split; intros H; inversion H; reflexivity.
Qed.

Lemma getitem_Some {V} (d : gmap string V) (k : string) (v : V) :
  d !! k = Some v -> getitem d k = OK v.
Proof. apply getitem_OK. Qed.

Lemma str_eq_true (a b : string) : str_eq a b = true <-> a = b.
Proof. apply String.eqb_eq. Qed.

Lemma str_eq_false (a b : string) : str_eq a b = false <-> a <> b.
Proof. apply String.eqb_neq. Qed.

Lemma str_eq_refl (a : string) : str_eq a a = true.
Proof. apply String.eqb_refl. Qed.

(** Splits a successful run of binds and tests into its steps. *)
Ltac step_OK H :=
  match type of H with
  | bind ?m _ = OK _ =>
      let a := fresh "v" in
      let Hm := fresh "Hm" in
      apply bind_OK in H; destruct H as (a & Hm & H)
  | (if ?c then _ else _) = OK _ =>
      let Hc := fresh "Hc" in destruct c eqn:Hc
  | OK _ = OK _ => inversion H; subst; clear H
  end.

(** A property kept by every iteration is kept by the loop. *)
Lemma for_each_invariant {S A} (P : S -> Prop) (body : S -> A -> result S) :
  (forall st x st', P st -> body st x = OK st' -> P st') ->
  forall xs st st', P st -> for_each body xs st = OK st' -> P st'.
Proof.
  intros Hstep xs. induction xs as [|x xs IH]; intros st st' HP H; simpl in H.
  - inversion H; subst; exact HP.
  - step_OK H. eapply IH; [eapply Hstep; eauto | exact H].
Qed.

(** An iteration that raises in every state makes the loop raise. *)
Lemma for_each_raises {S A} (body : S -> A -> result S) (x : A) :
  (forall st, raises (body st x)) ->
  forall xs st, In x xs -> raises (for_each body xs st).
Proof.
  intros Hx xs. induction xs as [|y xs IH]; intros st Hin; [destruct Hin|].
  simpl. destruct Hin as [->|Hin].
  - apply bind_raises, Hx.
  - apply bind_raises_k. intros st' _. apply IH, Hin.
Qed.

(** ** [percent] *)

Lemma upto_In (k : nat) (z : Z) : 0 <= z < Z.of_nat k -> In z (upto k).
Proof.
  intros H. unfold upto. apply in_map_iff. exists (Z.to_nat z). split; [lia|].
  apply in_seq. lia.
Qed.

Lemma percent_table_sound (bound : nat) :
  percent_table_ok bound = true ->
  forall n d, 0 <= n <= d -> 0 < d <= Z.of_nat bound ->
  exists p, percent n d = OK p /\ nearest_percent n d p.
Proof.
  intros H n d Hn Hd. unfold percent_table_ok in H.
  rewrite forallb_forall in H.
  assert (Hk : In (d - 1) (upto bound)) by (apply upto_In; lia).
  apply H in Hk. rewrite forallb_forall in Hk.
  assert (Hin : In n (upto (Z.to_nat (2 + (d - 1))))) by (apply upto_In; lia).
  apply Hk in Hin. replace (1 + (d - 1)) with d in Hin by lia.
  unfold percent_okb in Hin. destruct (percent n d) as [p|]; [|discriminate].
  exists p. split; [reflexivity|]. apply Z.leb_le in Hin. exact Hin.
Qed.

Lemma percent_table_200 : percent_table_ok 200 = true.
Proof. vm_compute. reflexivity. Qed.

















(** ** Eligibility *)

Lemma evaluating_for_https_true (g : globals) (domain : string) (r : domain_rec) :
  domain_data g !! domain = Some r ->
  evaluating_for_https g domain = OK true <->
    exists i, inspect r = Some i /\ i !! "Live" = Some "True".
Proof.
  intros Hr. unfold evaluating_for_https.
  rewrite (getitem_Some _ _ _ Hr). simpl.
  destruct (inspect r) as [i|]; [|split; [discriminate | intros (i & H & _); discriminate]].
  unfold getitem. split.
  - intros H. exists i. split; [reflexivity|].
    destruct (i !! "Live") as [live|]; simpl in H; [|discriminate].
    injection H as Heq. apply str_eq_true in Heq. subst. reflexivity.
  - intros (i' & Hi & Hlive). inversion Hi; subst i'. rewrite Hlive. reflexivity.
Qed.

Lemma evaluating_for_analytics_true (g : globals) (domain : string) (r : domain_rec) :
  domain_data g !! domain = Some r ->
  evaluating_for_analytics g domain = OK true <->
    exists i a, inspect r = Some i /\ analytics r = Some a /\
      i !! "Live" = Some "True" /\ i !! "Redirect" = Some "False" /\
      branch r = "executive".
Proof.
  intros Hr. unfold evaluating_for_analytics.
  rewrite (getitem_Some _ _ _ Hr). simpl.
  destruct (inspect r) as [i|];
    [|split; [discriminate | intros (i & a & H & _); discriminate]].
  destruct (analytics r) as [a|];
    [|split; [discriminate | intros (i' & a & _ & H & _); discriminate]].
  unfold getitem. split.
  - intros H. exists i, a. split; [reflexivity|]. split; [reflexivity|].
    destruct (i !! "Live") as [live|]; simpl in H; [|discriminate].
    destruct (str_eq live "True") eqn:Hlive; simpl in H; [|discriminate].
    destruct (i !! "Redirect") as [redirect|]; simpl in H; [|discriminate].
    destruct (str_eq redirect "False") eqn:Hred; simpl in H; [|discriminate].
    injection H as Hbr.
    apply str_eq_true in Hlive, Hred, Hbr. subst. auto.
  - intros (i' & a' & Hi & _ & Hlive & Hred & Hbr). inversion Hi; subst i'.
    rewrite Hlive. simpl. rewrite Hred. simpl. rewrite Hbr. reflexivity.
Qed.

(** C4: a domain of the registry is eligible for the HTTPS track exactly
    when it has an inspect record whose ['Live'] is ["True"], and for the
    analytics track exactly when it has inspect and analytics records,
    ['Live'] is ["True"], ['Redirect'] is ["False"] and its branch is
    ["executive"]. *)
Theorem eligibility (g : globals) (domain : string) (r : domain_rec) :
  domain_data g !! domain = Some r ->
  (evaluating_for_https g domain = OK true <->
     exists i, inspect r = Some i /\ i !! "Live" = Some "True") /\
  (evaluating_for_analytics g domain = OK true <->
     exists i a, inspect r = Some i /\ analytics r = Some a /\
       i !! "Live" = Some "True" /\ i !! "Redirect" = Some "False" /\
       branch r = "executive").
Proof.
  intros Hr. split.
  - apply evaluating_for_https_true, Hr.
  - apply evaluating_for_analytics_true, Hr.
Qed.

Lemma eligibility_witness :
  let r := DomainRec "executive" "NASA"
             (Some (hsts_inspect "False" "True" "31536000")) None
             (Some (analytics_fields "True")) in
  let g := one_domain (inspect r) (tls r) (analytics r) in
  domain_data g !! "a.gov" = Some r /\
  ((evaluating_for_https g "a.gov" = OK true <->
      exists i, inspect r = Some i /\ i !! "Live" = Some "True") /\
   (evaluating_for_analytics g "a.gov" = OK true <->
      exists i a, inspect r = Some i /\ analytics r = Some a /\
        i !! "Live" = Some "True" /\ i !! "Redirect" = Some "False" /\
        branch r = "executive")).
Proof.
  intros r g. split; [reflexivity|]. apply (eligibility g "a.gov" r). reflexivity.
Defined.

(** ** Loading *)

Lemma str_in_true (x : string) (xs : list string) : str_in x xs = true <-> In x xs.
Proof.
  unfold str_in. rewrite existsb_exists. split.
  - intros (y & Hy & Heq). apply str_eq_true in Heq. subst. exact Hy.
  - intros H. exists x. split; [exact H | apply str_eq_refl].
Qed.

Lemma str_in_false (x : string) (xs : list string) : str_in x xs = false <-> ~ In x xs.
Proof.
  rewrite <- str_in_true. destruct (str_in x xs); split; intros H.
  - discriminate.
  - exfalso. apply H. reflexivity.
  - intros H'. discriminate.
  - reflexivity.
Qed.

Lemma branch_for_executive (agency : string) :
  ~ In agency legislative_agencies ->
  agency <> "The Judicial Branch (Courts)" ->
  agency <> "Non-Federal Agency" ->
  branch_for agency = "executive".
Proof.
  intros Hleg Hjud Hnon. unfold branch_for.
  apply str_in_false in Hleg. rewrite Hleg.
  simpl. apply str_eq_false in Hjud, Hnon. rewrite Hjud, Hnon. reflexivity.
Qed.

Lemma load_domain_row_listed (g g' : globals) (row : list string) :
  agencies_listed g -> load_domain_row g row = OK g' -> agencies_listed g'.
Proof.
  intros Hg H. unfold load_domain_row in H.
  repeat step_OK H; try exact Hg.
  intros a Ha. simpl in *.
  destruct (decide (a = v1)) as [->|Hne].
  - rewrite lookup_insert_eq. eauto.
  - rewrite lookup_insert_ne by congruence.
    destruct (str_in v1 (agencies g)) eqn:Hin.
    + apply Hg, Ha.
    + rewrite lookup_insert_ne by congruence. apply Hg.
      apply in_app_or in Ha. destruct Ha as [Ha|[Ha|[]]]; [exact Ha | congruence].
Qed.

Lemma domains_loop_listed (rows : list (list string)) (g : globals) :
  for_each load_domain_row rows empty_globals = OK g -> agencies_listed g.
Proof.
  apply (for_each_invariant agencies_listed).
  - intros st x st'. apply load_domain_row_listed.
  - intros a [].
Qed.

(** What [load_domain_row] does with a federal row of an accepted agency. *)
Lemma load_domain_row_accepts (g : globals) (name agency : string) :
  agencies_listed g ->
  startswith (lower name) "domain" = false ->
  branch_for agency <> "non-federal" ->
  exists g',
    load_domain_row g [name; "Federal Agency"; agency] = OK g' /\
    domain_data g' !! lower name
      = Some (DomainRec (branch_for agency) agency None None None).
Proof.
  intros Hg Hname Hbr. unfold load_domain_row. simpl. rewrite Hname. simpl.
  apply str_eq_false in Hbr. rewrite Hbr.
  destruct (str_in agency (agencies g)) eqn:Hin.
  - apply str_in_true in Hin. destruct (Hg _ Hin) as [members Hm].
    rewrite (getitem_Some _ _ _ Hm). simpl. eexists. split; [reflexivity|].
    simpl. apply lookup_insert_eq.
  - unfold getitem. rewrite lookup_insert_eq. simpl. eexists. split; [reflexivity|].
    simpl. apply lookup_insert_eq.
Qed.

Section RecordInvariant.
Variable P : domain_rec -> Prop.
Hypothesis P_new : forall a, P (DomainRec (branch_for a) a None None None).
Hypothesis P_inspect : forall r d, P r -> P (set_inspect r d).
Hypothesis P_tls : forall r d, P r -> P (set_tls r d).
Hypothesis P_analytics :
  forall r d, P r -> truthy (inspect r) = true -> P (set_analytics r d).

Lemma records_insert (g : globals) (d : string) (r : domain_rec) :
  records_satisfy P g -> P r ->
  records_satisfy P (with_domain_data g (<[d := r]> (domain_data g))).
Proof.
  intros Hg Hr d' r'. simpl. destruct (decide (d = d')) as [->|Hne].
  - rewrite lookup_insert_eq. intros [= <-]. exact Hr.
  - rewrite lookup_insert_ne by exact Hne. apply Hg.
Qed.

Lemma load_domain_row_records (g g' : globals) (row : list string) :
  records_satisfy P g -> load_domain_row g row = OK g' -> records_satisfy P g'.
Proof.
  intros Hg H. unfold load_domain_row in H.
  repeat step_OK H; try exact Hg.
  intros d r. simpl. destruct (decide (lower v = d)) as [->|Hne].
  - rewrite lookup_insert_eq. intros [= <-]. apply P_new.
  - rewrite lookup_insert_ne by exact Hne. apply Hg.
Qed.

Lemma load_inspect_row_records (st st' : loader) (row : list string) :
  records_satisfy P st.2 -> load_inspect_row st row = OK st' ->
  records_satisfy P st'.2.
Proof.
  destruct st as [headers g]. intros Hg H. unfold load_inspect_row in H.
  step_OK H. step_OK H; [step_OK H; exact Hg|].
  destruct (domain_data g !! lower v) as [r|] eqn:Hr; [|step_OK H; exact Hg].
  repeat step_OK H. simpl. apply records_insert; [exact Hg|].
  apply P_inspect. exact (Hg _ _ Hr).
Qed.

Lemma load_tls_row_records (st st' : loader) (row : list string) :
  records_satisfy P st.2 -> load_tls_row st row = OK st' ->
  records_satisfy P st'.2.
Proof.
  destruct st as [headers g]. intros Hg H. unfold load_tls_row in H.
  step_OK H. step_OK H; [step_OK H; exact Hg|].
  destruct (domain_data g !! lower v) as [r|] eqn:Hr; [|step_OK H; exact Hg].
  repeat step_OK H. simpl. apply records_insert; [exact Hg|].
  apply P_tls. exact (Hg _ _ Hr).
Qed.

Lemma load_analytics_row_records (st st' : loader) (row : list string) :
  records_satisfy P st.2 -> load_analytics_row st row = OK st' ->
  records_satisfy P st'.2.
Proof.
  destruct st as [headers g]. intros Hg H. unfold load_analytics_row in H.
  step_OK H. step_OK H; [step_OK H; exact Hg|].
  destruct (domain_data g !! lower v) as [r|] eqn:Hr; [|step_OK H; exact Hg].
  destruct (truthy (inspect r)) eqn:Htruthy; simpl in H; [|step_OK H; exact Hg].
  repeat step_OK H. simpl. apply records_insert; [exact Hg|].
  apply P_analytics; [exact (Hg _ _ Hr) | exact Htruthy].
Qed.

(** The property holds of every record of the loaded registry. *)
Lemma load_data_records (domains_csv inspect_csv tls_csv analytics_csv : list (list string))
    (g : globals) :
  load_data domains_csv inspect_csv tls_csv analytics_csv = OK g ->
  records_satisfy P g.
Proof.
  intros H. unfold load_data in H. repeat step_OK H.
  assert (H0 : records_satisfy P v).
  { eapply (for_each_invariant (records_satisfy P)); [| |exact Hm].
    - intros st x st'. apply load_domain_row_records.
    - intros d r. simpl. rewrite lookup_empty. discriminate. }
  assert (H1 : records_satisfy P v0.2).
  { eapply (for_each_invariant (fun st : loader => records_satisfy P st.2));
      [| |exact Hm0].
    - intros st x st'. apply load_inspect_row_records.
    - exact H0. }
  assert (H2 : records_satisfy P v1.2).
  { eapply (for_each_invariant (fun st : loader => records_satisfy P st.2));
      [| |exact Hm1].
    - intros st x st'. apply load_tls_row_records.
    - exact H1. }
  eapply (for_each_invariant (fun st : loader => records_satisfy P st.2));
    [| |exact Hm2].
  - intros st x st'. apply load_analytics_row_records.
  - exact H2.
Qed.
End RecordInvariant.

(** The branch stored with a domain is the branch of its agency. *)
Lemma load_data_branch (domains_csv inspect_csv tls_csv analytics_csv : list (list string))
    (g : globals) :
  load_data domains_csv inspect_csv tls_csv analytics_csv = OK g ->
  records_satisfy (fun r => branch r = branch_for (agency r)) g.
Proof. apply load_data_records; intros; simpl; auto. Qed.

(** An analytics record is only ever attached next to an inspect record. *)
Lemma load_data_analytics (domains_csv inspect_csv tls_csv analytics_csv : list (list string))
    (g : globals) :
  load_data domains_csv inspect_csv tls_csv analytics_csv = OK g ->
  records_satisfy (fun r => inspect r = None -> analytics r = None) g.
Proof.
  apply load_data_records; intros; simpl in *; auto; try discriminate.
  destruct (inspect r); [discriminate | simpl in *; discriminate].
Qed.

(** C10: an agency name outside the three enumerated lists resolves to
    ["executive"]; a federal row of such an agency is therefore accepted
    by [load_data] with branch ["executive"], and every domain the loaded
    registry files under it meets the branch condition of analytics
    eligibility. *)
Theorem unrecognized_agency_is_executive (a : string) :
  ~ In a legislative_agencies ->
  a <> "The Judicial Branch (Courts)" ->
  a <> "Non-Federal Agency" ->
  branch_for a = "executive" /\
  (forall rows g name,
     for_each load_domain_row rows empty_globals = OK g ->
     startswith (lower name) "domain" = false ->
     exists g',
       load_domain_row g [name; "Federal Agency"; a] = OK g' /\
       domain_data g' !! lower name = Some (DomainRec "executive" a None None None)) /\
  (forall domains_csv inspect_csv tls_csv analytics_csv g d r,
     load_data domains_csv inspect_csv tls_csv analytics_csv = OK g ->
     domain_data g !! d = Some r -> agency r = a ->
     branch r = "executive" /\
     (evaluating_for_analytics g d = OK true <->
        exists i an, inspect r = Some i /\ analytics r = Some an /\
          i !! "Live" = Some "True" /\ i !! "Redirect" = Some "False")).
Proof.
  intros Hleg Hjud Hnon.
  pose proof (branch_for_executive a Hleg Hjud Hnon) as Hexec.
  split; [exact Hexec|]. split.
  - intros rows g name Hrows Hname.
    destruct (load_domain_row_accepts g name a) as (g' & Hstep & Hlook).
    + eapply domains_loop_listed, Hrows.
    + exact Hname.
    + rewrite Hexec. discriminate.
    + exists g'. rewrite Hexec in Hlook. auto.
  - intros dcsv icsv tcsv acsv g d r Hload Hr Ha.
    assert (Hbr : branch r = "executive").
    { rewrite (load_data_branch _ _ _ _ _ Hload d r Hr), Ha. exact Hexec. }
    split; [exact Hbr|].
    rewrite (evaluating_for_analytics_true g d r Hr). split.
    + intros (i & an & H1 & H2 & H3 & H4 & _). eauto 10.
    + intros (i & an & H1 & H2 & H3 & H4). eauto 10.
Qed.

Lemma unrecognized_agency_is_executive_witness :
  (~ In "NASA" legislative_agencies /\
   "NASA" <> "The Judicial Branch (Courts)" /\
   "NASA" <> "Non-Federal Agency") /\
  branch_for "NASA" = "executive".
Proof.
  assert (H1 : ~ In "NASA" legislative_agencies)
    by (simpl; intros [H|[H|[H|[H|[]]]]]; discriminate).
  assert (H2 : "NASA" <> "The Judicial Branch (Courts)") by discriminate.
  assert (H3 : "NASA" <> "Non-Federal Agency") by discriminate.
  split; [auto|]. exact (proj1 (unrecognized_agency_is_executive "NASA" H1 H2 H3)).
Defined.

(** C9, as stated, fails for [tls.csv]: the row of a registry domain that
    has no inspect record is attached all the same. *)
Lemma tls_row_kept_without_inspect :
  exists g r,
    load_data [["Domain Name"; "Domain Type"; "Agency"];
               ["a.gov"; "Federal Agency"; "NASA"]]
              [["Domain"; "Live"]]
              [["Domain"; "Grade"]; ["a.gov"; "A"]]
              [["Domain"; "Participates in Analytics"]] = OK g /\
    domain_data g !! "a.gov" = Some r /\
    inspect r = None /\
    tls r = Some (<["Grade" := "A"]> {["Domain" := "a.gov"]}).
Proof.
  eexists _, _. split; [vm_compute; reflexivity|].
  split; [vm_compute; reflexivity|]. split; reflexivity.
Qed.

(** C9 (amended): an [analytics.csv] row whose domain is in the registry
    without an inspect record is dropped without an error, so that after
    loading a domain without an inspect record has no analytics record;
    a [tls.csv] row of such a domain is attached like any other. *)
Theorem analytics_needs_inspect (headers : list string) (g : globals)
    (row : list string) (name : string) (r : domain_rec) :
  row !! 0%nat = Some name ->
  str_eq (lower name) "domain" = false ->
  domain_data g !! lower name = Some r ->
  inspect r = None ->
  load_analytics_row (headers, g) row = OK (headers, g) /\
  (forall dict_row,
     fill_row headers 0 row ∅ = OK dict_row ->
     load_tls_row (headers, g) row
       = OK (headers,
             with_domain_data g (<[lower name := set_tls r dict_row]> (domain_data g)))) /\
  (forall domains_csv inspect_csv tls_csv analytics_csv g' d r',
     load_data domains_csv inspect_csv tls_csv analytics_csv = OK g' ->
     domain_data g' !! d = Some r' -> inspect r' = None -> analytics r' = None).
Proof.
  intros Hrow Hhead Hr Hi. split; [|split].
  - unfold load_analytics_row, index. rewrite Hrow. simpl.
    rewrite Hhead, Hr, Hi. reflexivity.
  - intros dict_row Hfill. unfold load_tls_row, index. rewrite Hrow. simpl.
    rewrite Hhead, Hr, Hfill. reflexivity.
  - intros dcsv icsv tcsv acsv g' d r' Hload Hr' Hi'.
    exact (load_data_analytics _ _ _ _ _ Hload d r' Hr' Hi').
Qed.

Lemma analytics_needs_inspect_witness :
  let headers := ["Domain"; "Participates in Analytics"] in
  let g := one_domain None None None in
  let row := ["a.gov"; "True"] in
  let r := DomainRec "executive" "NASA" None None None in
  (row !! 0%nat = Some "a.gov" /\
   str_eq (lower "a.gov") "domain" = false /\
   domain_data g !! lower "a.gov" = Some r /\
   inspect r = None) /\
  load_analytics_row (headers, g) row = OK (headers, g).
Proof.
  intros headers g row r.
  assert (H1 : row !! 0%nat = Some "a.gov") by reflexivity.
  assert (H2 : str_eq (lower "a.gov") "domain" = false) by reflexivity.
  assert (H3 : domain_data g !! lower "a.gov" = Some r) by reflexivity.
  assert (H4 : inspect r = None) by reflexivity.
  split; [auto|].
  exact (proj1 (analytics_needs_inspect headers g row "a.gov" r H1 H2 H3 H4)).
Defined.

(** ** The HTTPS row *)

(** The sections of [https_row_for] behind a produced row. *)
Lemma https_row_for_OK (g : globals) (domain : string) (row : https_row) :
  https_row_for g domain = OK row ->
  exists r i t,
    domain_data g !! domain = Some r /\ inspect r = Some i /\
    https_of i = OK (row_https row) /\
    behavior_of i (row_https row) = OK (row_https_forced row) /\
    hsts_age_of i = OK (row_hsts_age row) /\
    hsts_of i (row_https row) (row_hsts_age row) = OK (row_hsts row) /\
    tls_part_of (row_https row) (tls r) = OK t /\
    row_grade row = grade t.
Proof.
  intros H. unfold https_row_for in H. repeat step_OK H. simpl.
  apply getitem_OK in Hm.
  destruct (inspect v) as [i|] eqn:Hi; simpl in Hm0; [|discriminate].
  injection Hm0 as <-. exists v, i, v6. auto 10.
Qed.

Lemma https_of_range (i : gmap string string) (https : Z) :
  https_of i = OK https -> In https [-1; 0; 1; 2].
Proof. intros H. unfold https_of in H. repeat step_OK H; simpl; auto. Qed.

Lemma behavior_of_range (i : gmap string string) (https behavior : Z) :
  behavior_of i https = OK behavior ->
  In behavior [0; 1; 2; 3] /\ (https <= 0 -> behavior = 0).
Proof.
  intros H. unfold behavior_of in H. repeat step_OK H; simpl; auto;
    (split; [auto | apply Z.leb_gt in Hc; lia]).
Qed.

Lemma hsts_of_range (i : gmap string string) (https : Z) (hsts_age : option Z) (hsts : Z) :
  hsts_of i https hsts_age = OK hsts ->
  In hsts [-1; 0; 1; 2; 3] /\ (https <= 0 -> hsts = -1).
Proof.
  intros H. unfold hsts_of in H. repeat step_OK H; simpl; auto 10;
    (split; [auto 10 | apply Z.leb_gt in Hc; lia]).
Qed.

Lemma grade_table_lookup (letter : string) (n : Z) :
  grade_table !! letter = Some n ->
  In (letter, n) [("F", 0); ("T", 1); ("C", 2); ("B", 3); ("A-", 4); ("A", 5); ("A+", 6)].
Proof.
  intros H. unfold grade_table in H. apply elem_of_list_to_map_2 in H.
  apply list_elem_of_In in H. exact H.
Qed.

Lemma grade_table_unknown (letter : string) :
  ~ In letter ["F"; "T"; "C"; "B"; "A-"; "A"; "A+"] -> grade_table !! letter = None.
Proof.
  intros H. unfold grade_table. apply not_elem_of_list_to_map_1.
  intros Hin. apply list_elem_of_In in Hin. exact (H Hin).
Qed.

Lemma tls_part_of_range (https : Z) (tls : option (gmap string string)) (t : tls_part) :
  tls_part_of https tls = OK t -> In (grade t) [-1; 0; 1; 2; 3; 4; 5; 6].
Proof.
  intros H. unfold tls_part_of in H. step_OK H; [step_OK H; simpl; auto|].
  destruct tls as [rec|]; [|step_OK H; simpl; auto].
  repeat step_OK H. simpl. apply getitem_OK, grade_table_lookup in Hm0.
  simpl in Hm0.
  repeat (destruct Hm0 as [Hm0|Hm0]; [injection Hm0 as _ <-; simpl; auto 10|]).
  destruct Hm0.
Qed.

(** C3: in every row the classifier produces, the presence score is in
    {-1,0,1,2}; the enforcement score is in {0,1,2,3} and is 0 when the
    presence score is <= 0; the HSTS score is in {-1,0,1,2,3} and is -1
    when the presence score is <= 0; the grade score is in {-1,0,...,6}. *)
Theorem scores_in_range (g : globals) (domain : string) (row : https_row) :
  https_row_for g domain = OK row ->
  In (row_https row) [-1; 0; 1; 2] /\
  In (row_https_forced row) [0; 1; 2; 3] /\
  (row_https row <= 0 -> row_https_forced row = 0) /\
  In (row_hsts row) [-1; 0; 1; 2; 3] /\
  (row_https row <= 0 -> row_hsts row = -1) /\
  In (row_grade row) [-1; 0; 1; 2; 3; 4; 5; 6].
Proof.
  intros H. apply https_row_for_OK in H.
  destruct H as (r & i & t & _ & _ & Hhttps & Hbeh & _ & Hhsts & Htls & Hgrade).
  apply https_of_range in Hhttps. apply behavior_of_range in Hbeh.
  apply hsts_of_range in Hhsts. apply tls_part_of_range in Htls.
  rewrite Hgrade. tauto.
Qed.


(** The HSTS score of a produced row is the ladder's result. *)
Lemma row_hsts_determined (g : globals) (domain : string) (r : domain_rec)
    (i : gmap string string) (https : Z) (hsts_age : option Z) (v : Z) (row : https_row) :
  domain_data g !! domain = Some r -> inspect r = Some i ->
  https_of i = OK https -> hsts_age_of i = OK hsts_age ->
  hsts_of i https hsts_age = OK v ->
  https_row_for g domain = OK row -> row_hsts row = v.
Proof.
  intros Hr Hi Hhttps Hage Hv Hrow. apply https_row_for_OK in Hrow.
  destruct Hrow as (r' & i' & t & Hr' & Hi' & Hhttps' & _ & Hage' & Hhsts' & _).
  assert (r' = r) by congruence. subst r'.
  assert (i' = i) by congruence. subst i'.
  assert (E1 : row_https row = https) by congruence.
  assert (E2 : row_hsts_age row = hsts_age) by congruence.
  rewrite E1, E2 in Hhsts'. congruence.
Qed.

(** The row [https_row_for] returns when each of its sections evaluates. *)
Lemma https_row_for_runs (g : globals) (domain : string) (r : domain_rec)
    (i : gmap string string) (canonical : string) (https behavior : Z)
    (hsts_age : option Z) (hsts : Z) (t : tls_part) :
  domain_data g !! domain = Some r -> inspect r = Some i ->
  i !! "Canonical" = Some canonical ->
  https_of i = OK https -> behavior_of i https = OK behavior ->
  hsts_age_of i = OK hsts_age -> hsts_of i https hsts_age = OK hsts ->
  tls_part_of https (tls r) = OK t ->
  https_row_for g domain
  = OK (HttpsRow domain canonical (agency r) https behavior hsts hsts_age
          (grade t) (fs t) (sig t) (rc4 t) (ssl3 t) (tls12 t)).
Proof.
  intros Hr Hi Hc Hhttps Hbeh Hage Hhsts Htls. unfold https_row_for.
  rewrite (getitem_Some _ _ _ Hr). simpl. rewrite Hi. simpl.
  rewrite (getitem_Some _ _ _ Hc). simpl.
  rewrite Hhttps. simpl. rewrite Hbeh. simpl. rewrite Hage. simpl.
  rewrite Hhsts. simpl. rewrite Htls. reflexivity.
Qed.

(** An exception of the max-age parse leaves [https_row_for] as it is. *)
Lemma https_row_for_stops_at_age (g : globals) (domain : string) (r : domain_rec)
    (i : gmap string string) (canonical : string) (https behavior : Z) (e : exn) :
  domain_data g !! domain = Some r -> inspect r = Some i ->
  i !! "Canonical" = Some canonical ->
  https_of i = OK https -> behavior_of i https = OK behavior ->
  hsts_age_of i = Err e ->
  https_row_for g domain = Err e.
Proof.
  intros Hr Hi Hc Hhttps Hbeh Hage. unfold https_row_for.
  rewrite (getitem_Some _ _ _ Hr). simpl. rewrite Hi. simpl.
  rewrite (getitem_Some _ _ _ Hc). simpl.
  rewrite Hhttps. simpl. rewrite Hbeh. simpl. rewrite Hage. reflexivity.
Qed.

(** An exception of the ladder leaves [https_row_for] as it is. *)
Lemma https_row_for_stops_at_ladder (g : globals) (domain : string) (r : domain_rec)
    (i : gmap string string) (canonical : string) (https behavior : Z)
    (hsts_age : option Z) (e : exn) :
  domain_data g !! domain = Some r -> inspect r = Some i ->
  i !! "Canonical" = Some canonical ->
  https_of i = OK https -> behavior_of i https = OK behavior ->
  hsts_age_of i = OK hsts_age -> hsts_of i https hsts_age = Err e ->
  https_row_for g domain = Err e.
Proof.
  intros Hr Hi Hc Hhttps Hbeh Hage Hhsts. unfold https_row_for.
  rewrite (getitem_Some _ _ _ Hr). simpl. rewrite Hi. simpl.
  rewrite (getitem_Some _ _ _ Hc). simpl.
  rewrite Hhttps. simpl. rewrite Hbeh. simpl. rewrite Hage. simpl.
  rewrite Hhsts. reflexivity.
Qed.


(** An eligible domain whose row raises stops the first pass. *)
Lemma domain_pass_raises (g : globals) (t : tables) (domain : string) :
  evaluating_for_https g domain = OK true ->
  raises (https_row_for g domain) ->
  raises (domain_pass g t domain).
Proof.
  intros He Hrow. unfold domain_pass. rewrite He. simpl.
  apply bind_raises, bind_raises, Hrow.
Qed.

Lemma process_domains_raises (g : globals) (domain : string) :
  In domain (domains g) ->
  evaluating_for_https g domain = OK true ->
  raises (https_row_for g domain) ->
  raises (process_domains g).
Proof.
  intros Hin He Hrow. unfold process_domains. apply bind_raises.
  apply (for_each_raises (domain_pass g) domain); [|exact Hin].
  intros t. apply domain_pass_raises; assumption.
Qed.

(** C1: the ladder has no rung for an absent max-age. For a domain
    eligible for the HTTPS track whose presence score is > 0, whose
    ['HSTS'] is not ["False"], whose ['HSTS Preload Ready'] is not ["True"]
    and whose ['HSTS Max Age'] is empty, the age is [None] and the
    comparison [hsts_age < 10886400] raises [TypeError]: no HSTS score is
    computed and no row is produced, and when the domain is listed
    [process_domains] and the run stop with it. *)
Theorem empty_max_age_breaks_ladder (g : globals) (domain : string) (r : domain_rec)
    (i : gmap string string) (canonical header preload : string)
    (https behavior : Z) :
  evaluating_for_https g domain = OK true ->
  domain_data g !! domain = Some r -> inspect r = Some i ->
  i !! "Canonical" = Some canonical ->
  https_of i = OK https -> 0 < https ->
  behavior_of i https = OK behavior ->
  i !! "HSTS" = Some header -> header <> "False" ->
  i !! "HSTS Preload Ready" = Some preload -> preload <> "True" ->
  i !! "HSTS Max Age" = Some "" ->
  hsts_age_of i = OK None /\
  hsts_of i https None = Err TypeError /\
  https_row_for g domain = Err TypeError /\
  (In domain (domains g) ->
     raises (process_domains g) /\
     forall domains_csv inspect_csv tls_csv analytics_csv,
       load_data domains_csv inspect_csv tls_csv analytics_csv = OK g ->
       raises (run domains_csv inspect_csv tls_csv analytics_csv)).
Proof.
  intros He Hr Hi Hcan Hhttps Hlt Hbeh Hh Hne Hp Hpne Hcell.
  assert (Hage : hsts_age_of i = OK None).
  { unfold hsts_age_of. rewrite (getitem_Some _ _ _ Hcell). reflexivity. }
  assert (Hhsts : hsts_of i https None = Err TypeError).
  { unfold hsts_of. apply Z.leb_gt in Hlt. rewrite Hlt.
    rewrite (getitem_Some _ _ _ Hh). simpl.
    apply str_eq_false in Hne. rewrite Hne.
    rewrite (getitem_Some _ _ _ Hp). simpl.
    apply str_eq_false in Hpne. rewrite Hpne. reflexivity. }
  assert (Hrow : https_row_for g domain = Err TypeError).
  { exact (https_row_for_stops_at_ladder g domain r i canonical https behavior None
             TypeError Hr Hi Hcan Hhttps Hbeh Hage Hhsts). }
  split; [exact Hage|]. split; [exact Hhsts|]. split; [exact Hrow|].
  intros Hin.
  assert (Hpd : raises (process_domains g)).
  { apply (process_domains_raises g domain); [exact Hin | exact He|].
    exists TypeError. exact Hrow. }
  split; [exact Hpd|].
  intros dcsv icsv tcsv acsv Hload. unfold run. rewrite Hload. simpl.
  apply bind_raises, Hpd.
Qed.

(** C2 (amended): with ['HSTS'] equal to ["True"], an empty
    ['HSTS Max Age'] is taken as absent: the age carried in a row is
    [None], the ladder gives -1 when the presence score is <= 0 and 3 when
    ['HSTS Preload Ready'] is ["True"], and in both cases the row is
    produced when the other sections evaluate; a non-empty cell on which
    [int] raises stops the classification with that exception, and no row
    is produced. *)
Theorem max_age_absent_or_rejected (g : globals) (domain : string) (r : domain_rec)
    (i : gmap string string) (cell : string) :
  evaluating_for_https g domain = OK true ->
  domain_data g !! domain = Some r -> inspect r = Some i ->
  i !! "HSTS" = Some "True" ->
  i !! "HSTS Max Age" = Some cell ->
  (cell = "" ->
     hsts_age_of i = OK None /\
     (forall row, https_row_for g domain = OK row -> row_hsts_age row = None) /\
     (forall https, https <= 0 -> hsts_of i https None = OK (-1)) /\
     (forall https, 0 < https -> i !! "HSTS Preload Ready" = Some "True" ->
        hsts_of i https None = OK 3) /\
     (forall canonical https behavior t,
        i !! "Canonical" = Some canonical ->
        https_of i = OK https -> behavior_of i https = OK behavior ->
        tls_part_of https (tls r) = OK t ->
        https <= 0 \/ i !! "HSTS Preload Ready" = Some "True" ->
        exists row,
          https_row_for g domain = OK row /\ row_hsts_age row = None /\
          row_hsts row = if Z.leb https 0 then -1 else 3)) /\
  (cell <> "" ->
     forall e, py_int cell = Err e ->
       hsts_age_of i = Err e /\
       (forall row, https_row_for g domain <> OK row) /\
       raises (https_row_for g domain) /\
       (forall canonical https behavior,
          i !! "Canonical" = Some canonical ->
          https_of i = OK https -> behavior_of i https = OK behavior ->
          https_row_for g domain = Err e)).
Proof.
  intros _ Hr Hi Hh Hcell. split.
  - intros ->.
    assert (Hage : hsts_age_of i = OK None).
    { unfold hsts_age_of. rewrite (getitem_Some _ _ _ Hcell). reflexivity. }
    assert (Hlow : forall https, https <= 0 -> hsts_of i https None = OK (-1)).
    { intros https Hle. unfold hsts_of. apply Z.leb_le in Hle. rewrite Hle.
      reflexivity. }
    assert (Hpre : forall https, 0 < https ->
              i !! "HSTS Preload Ready" = Some "True" -> hsts_of i https None = OK 3).
    { intros https Hlt Hp. unfold hsts_of.
      apply Z.leb_gt in Hlt. rewrite Hlt.
      rewrite (getitem_Some _ _ _ Hh). simpl.
      rewrite (getitem_Some _ _ _ Hp). reflexivity. }
    split; [exact Hage|]. split; [|split; [exact Hlow|split; [exact Hpre|]]].
    + intros row Hrow. apply https_row_for_OK in Hrow.
      destruct Hrow as (r' & i' & t & Hr' & Hi' & _ & _ & Hage' & _).
      assert (r' = r) by congruence. subst r'.
      assert (i' = i) by congruence. subst i'. congruence.
    + intros canonical https behavior t Hcan Hhttps Hbeh Htls Hcase.
      assert (Hhsts : hsts_of i https None = OK (if Z.leb https 0 then -1 else 3)).
      { destruct (Z.leb https 0) eqn:Hle.
        - apply Hlow. apply Z.leb_le. exact Hle.
        - apply Z.leb_gt in Hle. destruct Hcase as [Hcase|Hcase]; [lia|].
          apply Hpre; [lia | exact Hcase]. }
      eexists. split.
      * exact (https_row_for_runs g domain r i canonical https behavior None _ t
                 Hr Hi Hcan Hhttps Hbeh Hage Hhsts Htls).
      * split; reflexivity.
  - intros Hne e Hbad.
    assert (Hage : hsts_age_of i = Err e).
    { unfold hsts_age_of. rewrite (getitem_Some _ _ _ Hcell). simpl.
      apply str_eq_false in Hne. rewrite Hne. simpl. rewrite Hbad. reflexivity. }
    assert (Hraises : raises (https_row_for g domain)).
    { unfold https_row_for.
      rewrite (getitem_Some _ _ _ Hr). simpl. rewrite Hi. simpl.
      do 3 (apply bind_raises_k; intros ? _).
      apply bind_raises. exists e. exact Hage. }
    split; [exact Hage|]. split; [|split; [exact Hraises|]].
    + intros row Hrow. destruct Hraises as [e' He']. congruence.
    + intros canonical https behavior Hcan Hhttps Hbeh.
      exact (https_row_for_stops_at_age g domain r i canonical https behavior e
               Hr Hi Hcan Hhttps Hbeh Hage).
Qed.

(** ** The TLS grade *)

(** C8 (amended): for a domain eligible for the HTTPS track whose tls
    record has a ['Grade'] outside F, T, C, B, A-, A, A+: if the presence
    score is > 0 the classification raises, and so do [process_domains]
    and the run when the domain is listed; if the presence score is <= 0
    the grade is -1 and ['Grade'] is not looked at. *)
Theorem unknown_grade_raises (g : globals) (domain : string) (r : domain_rec)
    (i t : gmap string string) (letter : string) (https : Z) :
  evaluating_for_https g domain = OK true ->
  domain_data g !! domain = Some r -> inspect r = Some i ->
  tls r = Some t -> t !! "Grade" = Some letter ->
  ~ In letter grade_letters ->
  https_of i = OK https ->
  (0 < https ->
     raises (https_row_for g domain) /\
     (In domain (domains g) ->
        raises (process_domains g) /\
        forall domains_csv inspect_csv tls_csv analytics_csv,
          load_data domains_csv inspect_csv tls_csv analytics_csv = OK g ->
          raises (run domains_csv inspect_csv tls_csv analytics_csv))) /\
  (https <= 0 ->
     tls_part_of https (tls r) = OK no_tls /\
     forall row, https_row_for g domain = OK row -> row_grade row = -1).
Proof.
  intros He Hr Hi Ht Hletter Hunknown Hhttps. split.
  - intros Hlt.
    assert (Htls : tls_part_of https (tls r) = Err (KeyError letter)).
    { unfold tls_part_of. apply Z.leb_gt in Hlt. rewrite Hlt, Ht.
      rewrite (getitem_Some _ _ _ Hletter). simpl.
      unfold getitem. rewrite (grade_table_unknown letter Hunknown). reflexivity. }
    assert (Hrow : raises (https_row_for g domain)).
    { unfold https_row_for. rewrite (getitem_Some _ _ _ Hr). simpl.
      rewrite Hi. simpl. apply bind_raises_k; intros ? _.
      rewrite Hhttps. simpl.
      do 3 (apply bind_raises_k; intros ? _).
      apply bind_raises. exists (KeyError letter). exact Htls. }
    split; [exact Hrow|]. intros Hin.
    assert (Hpd : raises (process_domains g))
      by (apply (process_domains_raises g domain); assumption).
    split; [exact Hpd|].
    intros dcsv icsv tcsv acsv Hload. unfold run. rewrite Hload. simpl.
    apply bind_raises, Hpd.
  - intros Hle.
    assert (Htls : tls_part_of https (tls r) = OK no_tls).
    { unfold tls_part_of. apply Z.leb_le in Hle. rewrite Hle. reflexivity. }
    split; [exact Htls|]. intros row Hrow. apply https_row_for_OK in Hrow.
    destruct Hrow as (r' & i' & t' & Hr' & Hi' & Hhttps' & _ & _ & _ & Htls' & Hg).
    assert (r' = r) by congruence. subst r'.
    assert (i' = i) by congruence. subst i'.
    assert (E : row_https row = https) by congruence.
    rewrite E, Htls in Htls'. injection Htls' as <-. rewrite Hg. reflexivity.
Qed.

(** ** Rollups *)

Lemma count_where_cons {A} (test : A -> bool) (x : A) (rows : list A) :
  count_where test (x :: rows) = bump (test x) 0 + count_where test rows.
Proof.
  unfold count_where, bump. simpl. destruct (test x); simpl; lia.
Qed.

Lemma bump_plus (b : bool) (n : Z) : bump b n = n + bump b 0.
Proof. unfold bump. destruct b; lia. Qed.

(** The counting loop of one agency, against the eligible rows. *)
Lemma count_members (g : globals) (members : list string) :
  forall (hs : list (option https_row)) (ans : list (option analytics_row)) (c : counters),
  Forall2 (https_occurrence g) members hs ->
  Forall2 (analytics_occurrence g) members ans ->
  for_each (count_member g) members c
  = OK (Counters
          (https_total c + Z.of_nat (length (eligible_rows hs)))
          (n_https c + count_where (fun row => Z.geb (row_https row) 1) (eligible_rows hs))
          (n_https_forced c
           + count_where (fun row => Z.geb (row_https_forced row) 2) (eligible_rows hs))
          (n_hsts c + count_where (fun row => Z.geb (row_hsts row) 1) (eligible_rows hs))
          (n_grade c + count_where (fun row => Z.geb (row_grade row) 4) (eligible_rows hs))
          (analytics_total c + Z.of_nat (length (eligible_rows ans)))
          (n_dap c + count_where (fun row => Z.geb (row_dap row) 1) (eligible_rows ans))).
Proof.
  induction members as [|d members IH]; intros hs ans c Hh Ha.
  - inversion Hh; subst. inversion Ha; subst. simpl. destruct c; simpl.
    unfold count_where. simpl. f_equal. f_equal; lia.
  - inversion Hh as [|? h ? hs' Hd Hh']; subst.
    inversion Ha as [|? a ? ans' Hda Ha']; subst.
    simpl. unfold count_member.
    destruct h as [row|]; destruct a as [arow|]; simpl in Hd, Hda.
    + destruct Hd as [-> ->]. destruct Hda as [-> ->]. simpl.
      rewrite (IH hs' ans' _ Hh' Ha'). simpl. unfold eligible_rows. simpl.
      rewrite !count_where_cons.
      rewrite (bump_plus _ (n_https c)), (bump_plus _ (n_https_forced c)),
        (bump_plus _ (n_hsts c)), (bump_plus _ (n_grade c)), (bump_plus _ (n_dap c)).
      f_equal. f_equal; lia.
    + destruct Hd as [-> ->]. rewrite Hda. simpl.
      rewrite (IH hs' ans' _ Hh' Ha'). simpl. unfold eligible_rows. simpl.
      rewrite !count_where_cons.
      rewrite (bump_plus _ (n_https c)), (bump_plus _ (n_https_forced c)),
        (bump_plus _ (n_hsts c)), (bump_plus _ (n_grade c)).
      f_equal. f_equal; lia.
    + rewrite Hd. destruct Hda as [-> ->]. simpl.
      rewrite (IH hs' ans' _ Hh' Ha'). simpl. unfold eligible_rows. simpl.
      rewrite !count_where_cons. rewrite (bump_plus _ (n_dap c)).
      f_equal. f_equal; lia.
    + rewrite Hd, Hda. simpl.
      rewrite (IH hs' ans' _ Hh' Ha'). reflexivity.
Qed.

(** C5: the HTTPS rollup row of an agency is appended exactly when the
    number of its HTTPS-eligible member occurrences is > 0, the analytics
    row exactly when the number of analytics-eligible occurrences is > 0;
    the percentages of the HTTPS row are [percent] of the numbers of
    eligible occurrences with presence score >= 1, enforcement score >= 2,
    HSTS score >= 1 and grade score >= 4 over the number of eligible
    occurrences. *)
Theorem agency_rollup (g : globals) (t : tables) (name : string)
    (members : list string)
    (hs : list (option https_row)) (ans : list (option analytics_row))
    (p_https p_forced p_hsts p_grade p_dap : Z) :
  agency_data g !! name = Some members ->
  Forall2 (https_occurrence g) members hs ->
  Forall2 (analytics_occurrence g) members ans ->
  let rows := eligible_rows hs in
  let arows := eligible_rows ans in
  let total := Z.of_nat (length rows) in
  let atotal := Z.of_nat (length arows) in
  (0 < total ->
     percent (count_where (fun row => Z.geb (row_https row) 1) rows) total = OK p_https /\
     percent (count_where (fun row => Z.geb (row_https_forced row) 2) rows) total
       = OK p_forced /\
     percent (count_where (fun row => Z.geb (row_hsts row) 1) rows) total = OK p_hsts /\
     percent (count_where (fun row => Z.geb (row_grade row) 4) rows) total = OK p_grade) ->
  (0 < atotal ->
     percent (count_where (fun row => Z.geb (row_dap row) 1) arows) atotal = OK p_dap) ->
  agency_pass g t name
  = OK (Tables (https_domains t) (analytics_domains t)
          (https_agencies t
           ++ (if bool_decide (0 < total)
               then [HttpsAgencyRow name total p_https p_forced p_hsts p_grade]
               else []))%list
          (analytics_agencies t
           ++ (if bool_decide (0 < atotal)
               then [AnalyticsAgencyRow name atotal p_dap]
               else []))%list).
Proof.
  intros Hmembers Hh Ha rows arows total atotal Hp Hpa.
  unfold agency_pass. rewrite (getitem_Some _ _ _ Hmembers). simpl.
  rewrite (count_members g members hs ans zero_counters Hh Ha). simpl.
  fold rows arows. fold total atotal.
  unfold https_rollup, analytics_rollup. simpl.
  rewrite !Z.add_0_l.
  destruct (bool_decide_reflect (0 < total)) as [Hpos|Hzero];
    destruct (bool_decide_reflect (0 < atotal)) as [Hapos|Hazero].
  - destruct (Hp Hpos) as (-> & -> & -> & ->). rewrite (Hpa Hapos).
    replace (Z.gtb total 0) with true by (symmetry; apply Z.gtb_lt; lia).
    replace (Z.gtb atotal 0) with true by (symmetry; apply Z.gtb_lt; lia).
    reflexivity.
  - destruct (Hp Hpos) as (-> & -> & -> & ->).
    replace (Z.gtb total 0) with true by (symmetry; apply Z.gtb_lt; lia).
    replace (Z.gtb atotal 0) with false
      by (symmetry; apply not_true_is_false; rewrite Z.gtb_lt; lia).
    reflexivity.
  - rewrite (Hpa Hapos).
    replace (Z.gtb total 0) with false
      by (symmetry; apply not_true_is_false; rewrite Z.gtb_lt; lia).
    replace (Z.gtb atotal 0) with true by (symmetry; apply Z.gtb_lt; lia).
    reflexivity.
  - replace (Z.gtb total 0) with false
      by (symmetry; apply not_true_is_false; rewrite Z.gtb_lt; lia).
    replace (Z.gtb atotal 0) with false
      by (symmetry; apply not_true_is_false; rewrite Z.gtb_lt; lia).
    reflexivity.
Qed.

(** ** Summaries *)

Lemma fold_left_bump {A} (test : A -> bool) (rows : list A) (n : Z) :
  fold_left (fun enabled row => bump (test row) enabled) rows n
  = n + count_where test rows.
Proof.
  revert n. induction rows as [|row rows IH]; intros n; simpl.
  - unfold count_where. simpl. lia.
  - rewrite IH, count_where_cons, (bump_plus _ n). lia.
Qed.

Lemma https_enabled_count (rows : list https_row) :
  https_enabled rows
  = count_where
      (fun row => Z.geb (row_https row) 1 && Z.geb (row_https_forced row) 1) rows.
Proof. unfold https_enabled. rewrite fold_left_bump. lia. Qed.

Lemma analytics_enabled_count (rows : list analytics_row) :
  analytics_enabled rows = count_where (fun row => Z.geb (row_dap row) 1) rows.
Proof. unfold analytics_enabled. rewrite fold_left_bump. lia. Qed.

(** Without rows there is nothing to divide by. *)
Example https_summary_empty : https_summary [] = Err ZeroDivisionError.
Proof. reflexivity. Qed.

(** C6: for a non-empty list of HTTPS rows the summary's "active" value is
    [percent] of the number of rows with presence score >= 1 and
    enforcement score >= 1 over the number of rows, and "inactive" is 100
    minus it; likewise for analytics rows with participation score >= 1. *)
Theorem two_bucket_summary :
  (forall (rows : list https_row) (pct : Z),
     rows <> [] ->
     percent
       (count_where
          (fun row => Z.geb (row_https row) 1 && Z.geb (row_https_forced row) 1) rows)
       (Z.of_nat (length rows)) = OK pct ->
     https_summary rows
     = OK [ [Str "status"; Str "value"];
            [Str "active"; Int pct];
            [Str "inactive"; Int (100 - pct)] ]) /\
  (forall (arows : list analytics_row) (apct : Z),
     arows <> [] ->
     percent (count_where (fun row => Z.geb (row_dap row) 1) arows)
       (Z.of_nat (length arows)) = OK apct ->
     analytics_summary arows
     = OK [ [Str "status"; Str "value"];
            [Str "active"; Int apct];
            [Str "inactive"; Int (100 - apct)] ]) /\
  (forall (t : tables) (pct apct : Z),
     https_domains t <> [] -> analytics_domains t <> [] ->
     percent
       (count_where
          (fun row => Z.geb (row_https row) 1 && Z.geb (row_https_forced row) 1)
          (https_domains t))
       (Z.of_nat (length (https_domains t))) = OK pct ->
     percent (count_where (fun row => Z.geb (row_dap row) 1) (analytics_domains t))
       (Z.of_nat (length (analytics_domains t))) = OK apct ->
     process_stats t
     = OK ([ [Str "status"; Str "value"];
             [Str "active"; Int pct];
             [Str "inactive"; Int (100 - pct)] ],
           [ [Str "status"; Str "value"];
             [Str "active"; Int apct];
             [Str "inactive"; Int (100 - apct)] ])).
Proof.
  assert (Hh : forall rows pct,
            percent
              (count_where
                 (fun row => Z.geb (row_https row) 1 && Z.geb (row_https_forced row) 1)
                 rows)
              (Z.of_nat (length rows)) = OK pct ->
            https_summary rows = OK (stats_table pct)).
  { intros rows pct Hp. unfold https_summary.
    rewrite https_enabled_count, Hp. reflexivity. }
  assert (Ha : forall arows apct,
            percent (count_where (fun row => Z.geb (row_dap row) 1) arows)
              (Z.of_nat (length arows)) = OK apct ->
            analytics_summary arows = OK (stats_table apct)).
  { intros arows apct Hp. unfold analytics_summary.
    rewrite analytics_enabled_count, Hp. reflexivity. }
  split; [|split].
  - intros rows pct _ Hp. exact (Hh rows pct Hp).
  - intros arows apct _ Hp. exact (Ha arows apct Hp).
  - intros t pct apct _ _ Hp Hap. unfold process_stats.
    rewrite (Hh _ _ Hp), (Ha _ _ Hap). reflexivity.
Qed.

Lemma two_bucket_summary_witness :
  let row := HttpsRow "a.gov" "https://a.gov" "NASA" 2 3 2 (Some 31536000) 4
               (Some 2) (Some "SHA256withRSA") (Some false) (Some false) (Some true) in
  let weak := HttpsRow "b.gov" "http://b.gov" "NASA" 0 0 (-1) None (-1)
                None None None None None in
  ([row; weak; weak] <> [] /\ percent 1 3 = OK 33) /\
  https_summary [row; weak; weak]
  = OK [ [Str "status"; Str "value"];
         [Str "active"; Int 33];
         [Str "inactive"; Int 67] ].
Proof.
  intros row weak.
  assert (H1 : [row; weak; weak] <> []) by discriminate.
  assert (H2 : percent 1 3 = OK 33) by (vm_compute; reflexivity).
  split; [auto|].
  exact (proj1 two_bucket_summary [row; weak; weak] 33 H1 H2).
Defined.

(** * Further properties of the loader, the classifier and the passes *)

(** ** Sorting *)

Lemma insert_sorted_perm (x : string) (xs : list string) :
  Permutation (x :: xs) (insert_sorted x xs).
Proof.
  induction xs as [|y xs IH]; simpl; [reflexivity|].
  destruct (String.leb x y); [reflexivity|].
  rewrite perm_swap. constructor. exact IH.
Qed.

Lemma py_sort_perm (xs : list string) : Permutation xs (py_sort xs).
Proof.
  induction xs as [|x xs IH]; simpl; [constructor|].
  rewrite <- insert_sorted_perm. constructor. exact IH.
Qed.

Lemma insert_sorted_ascending (x : string) (xs : list string) :
  ascending xs -> ascending (insert_sorted x xs).
Proof.
  unfold ascending. induction xs as [|y xs IH]; intros Hs; simpl.
  - repeat constructor.
  - destruct (String.leb x y) eqn:Hxy.
    + constructor; [exact Hs | constructor; exact Hxy].
    + inversion Hs as [|? ? Hs' Hhd]; subst.
      constructor; [apply IH, Hs'|].
      assert (Hyx : String.leb y x = true).
      { destruct (String.leb_total x y) as [H|H]; [congruence | exact H]. }
      destruct xs as [|z xs]; simpl.
      * constructor. exact Hyx.
      * destruct (String.leb x z); constructor; [exact Hyx|].
        inversion Hhd; subst. assumption.
Qed.

Lemma py_sort_ascending (xs : list string) : ascending (py_sort xs).
Proof.
  induction xs as [|x xs IH]; simpl; [constructor|].
  apply insert_sorted_ascending, IH.
Qed.

Lemma py_sort_In (x : string) (xs : list string) : In x (py_sort xs) <-> In x xs.
Proof.
  split; apply Permutation_in; [symmetry|]; apply py_sort_perm.
Qed.

Lemma py_sort_NoDup (xs : list string) : List.NoDup xs -> List.NoDup (py_sort xs).
Proof. apply Permutation_NoDup, py_sort_perm. Qed.

(** ** The registry built by [load_data] *)

Lemma empty_globals_wf : registry_wf empty_globals.
Proof.
  constructor; simpl.
  - constructor.
  - constructor.
  - intros d. rewrite lookup_empty. split; [intros [] | intros [? ?]; discriminate].
  - intros a. rewrite lookup_empty. split; [intros [] | intros [? ?]; discriminate].
  - intros a members. rewrite lookup_empty. discriminate.
  - intros d r. rewrite lookup_empty. discriminate.
Qed.

Lemma NoDup_snoc (x : string) (xs : list string) :
  List.NoDup xs -> ~ In x xs -> List.NoDup (xs ++ [x])%list.
Proof.
  intros Hn Hx. apply List.NoDup_app; [exact Hn | repeat constructor; intros [] |].
  intros a Ha [<-|[]]. exact (Hx Ha).
Qed.

Lemma load_domain_row_wf (g g' : globals) (row : list string) :
  registry_wf g -> load_domain_row g row = OK g' -> registry_wf g'.
Proof.
  intros Hg H. unfold load_domain_row in H.
  repeat step_OK H; try exact Hg.
  rename v into name, v0 into domain_type, v1 into a, v2 into members.
  apply getitem_OK in Hm2.
  destruct Hg as [Hnd Hna Hdk Hak Hmem Hlist].
  set (d := lower name) in *.
  assert (Hdoms : forall x,
            In x (if str_in d (domains g) then domains g
                  else (domains g ++ [d])%list) <-> In x (domains g) \/ x = d).
  { intros x. destruct (str_in d (domains g)) eqn:Hin.
    - apply str_in_true in Hin. split; [auto | intros [H | ->]; assumption].
    - rewrite in_app_iff. simpl. split; [intros [H|[H|[]]]; auto | intros [H | ->]; auto]. }
  assert (Hags : forall x,
            In x (if str_in a (agencies g) then agencies g
                  else (agencies g ++ [a])%list) <-> In x (agencies g) \/ x = a).
  { intros x. destruct (str_in a (agencies g)) eqn:Hin.
    - apply str_in_true in Hin. split; [auto | intros [H | ->]; assumption].
    - rewrite in_app_iff. simpl. split; [intros [H|[H|[]]]; auto | intros [H | ->]; auto]. }
  assert (Hold : forall b, b <> a ->
            (if str_in a (agencies g) then agency_data g
             else <[a := []]> (agency_data g)) !! b = agency_data g !! b).
  { intros b Hb. destruct (str_in a (agencies g)); [reflexivity|].
    apply lookup_insert_ne. congruence. }
  assert (Hprev : forall x, In x members -> In x (domains g)).
  { intros x Hx. destruct (str_in a (agencies g)) eqn:Hin.
    - exact (proj2 (Hmem a members Hm2) x Hx).
    - rewrite lookup_insert_eq in Hm2. injection Hm2 as <-. destruct Hx. }
  constructor; simpl.
  - destruct (str_in d (domains g)) eqn:Hin; [exact Hnd|].
    apply NoDup_snoc; [exact Hnd | apply str_in_false, Hin].
  - destruct (str_in a (agencies g)) eqn:Hin; [exact Hna|].
    apply NoDup_snoc; [exact Hna | apply str_in_false, Hin].
  - intros x. rewrite Hdoms. destruct (decide (x = d)) as [->|Hne].
    + rewrite lookup_insert_eq. split; eauto.
    + rewrite lookup_insert_ne by congruence. rewrite <- Hdk. tauto.
  - intros x. rewrite Hags. destruct (decide (x = a)) as [->|Hne].
    + rewrite lookup_insert_eq. split; eauto.
    + rewrite lookup_insert_ne by congruence. rewrite (Hold x Hne), <- Hak. tauto.
  - intros b ms. destruct (decide (b = a)) as [->|Hne].
    + rewrite lookup_insert_eq. intros [= <-]. split.
      * destruct members; discriminate.
      * intros x Hx. apply Hdoms. apply in_app_iff in Hx.
        destruct Hx as [Hx|[->|[]]]; [left; apply Hprev, Hx | right; reflexivity].
    + rewrite lookup_insert_ne by congruence. rewrite (Hold b Hne). intros Hb.
      destruct (Hmem b ms Hb) as [Hne' Hsub]. split; [exact Hne'|].
      intros x Hx. apply Hdoms. left. apply Hsub, Hx.
  - intros x r. destruct (decide (x = d)) as [->|Hne].
    + rewrite lookup_insert_eq. intros [= <-]. simpl.
      exists (members ++ [d])%list. rewrite lookup_insert_eq. split; [reflexivity|].
      apply in_app_iff. right. left. reflexivity.
    + rewrite lookup_insert_ne by congruence. intros Hr.
      destruct (Hlist x r Hr) as (ms & Hms & Hx).
      destruct (decide (agency r = a)) as [Ha|Ha].
      * rewrite Ha. rewrite lookup_insert_eq.
        exists (members ++ [d])%list. split; [reflexivity|].
        apply in_app_iff. left.
        assert (members = ms); [|subst; exact Hx].
        rewrite Ha in Hms.
        destruct (str_in a (agencies g)) eqn:Hin; [congruence|].
        apply str_in_false in Hin. exfalso. apply Hin, Hak. eauto.
      * rewrite lookup_insert_ne by congruence. rewrite (Hold _ Ha). eauto.
Qed.

Lemma same_skeleton_refl (g : globals) : same_skeleton g g.
Proof.
  repeat split. intros d. destruct (domain_data g !! d); auto.
Qed.

Lemma same_skeleton_trans (g1 g2 g3 : globals) :
  same_skeleton g1 g2 -> same_skeleton g2 g3 -> same_skeleton g1 g3.
Proof.
  intros (Hd & Ha & Had & Hr) (Hd' & Ha' & Had' & Hr').
  repeat split; try congruence.
  intros d. specialize (Hr d). specialize (Hr' d).
  destruct (domain_data g1 !! d), (domain_data g2 !! d), (domain_data g3 !! d);
    try tauto. destruct Hr, Hr'. split; congruence.
Qed.

(** Replacing a record by one with the same branch and agency. *)
Lemma same_skeleton_insert (g : globals) (d : string) (r r' : domain_rec) :
  domain_data g !! d = Some r -> branch r' = branch r -> agency r' = agency r ->
  same_skeleton g (with_domain_data g (<[d := r']> (domain_data g))).
Proof.
  intros Hr Hb Ha. repeat split. intros x. simpl.
  destruct (decide (d = x)) as [<-|Hne].
  - rewrite lookup_insert_eq, Hr. auto.
  - rewrite lookup_insert_ne by exact Hne. destruct (domain_data g !! x); auto.
Qed.

Lemma load_inspect_row_skeleton (st st' : loader) (row : list string) :
  load_inspect_row st row = OK st' -> same_skeleton st.2 st'.2.
Proof.
  destruct st as [headers g]. intros H. unfold load_inspect_row in H.
  step_OK H. step_OK H; [step_OK H; apply same_skeleton_refl|].
  destruct (domain_data g !! lower v) as [r|] eqn:Hr;
    [|step_OK H; apply same_skeleton_refl].
  repeat step_OK H. simpl. apply (same_skeleton_insert g _ r); auto.
Qed.

Lemma load_tls_row_skeleton (st st' : loader) (row : list string) :
  load_tls_row st row = OK st' -> same_skeleton st.2 st'.2.
Proof.
  destruct st as [headers g]. intros H. unfold load_tls_row in H.
  step_OK H. step_OK H; [step_OK H; apply same_skeleton_refl|].
  destruct (domain_data g !! lower v) as [r|] eqn:Hr;
    [|step_OK H; apply same_skeleton_refl].
  repeat step_OK H. simpl. apply (same_skeleton_insert g _ r); auto.
Qed.

Lemma load_analytics_row_skeleton (st st' : loader) (row : list string) :
  load_analytics_row st row = OK st' -> same_skeleton st.2 st'.2.
Proof.
  destruct st as [headers g]. intros H. unfold load_analytics_row in H.
  step_OK H. step_OK H; [step_OK H; apply same_skeleton_refl|].
  destruct (domain_data g !! lower v) as [r|] eqn:Hr;
    [|step_OK H; apply same_skeleton_refl].
  destruct (truthy (inspect r)); simpl in H; [|step_OK H; apply same_skeleton_refl].
  repeat step_OK H. simpl. apply (same_skeleton_insert g _ r); auto.
Qed.

Lemma scan_loop_skeleton (body : loader -> list string -> result loader) :
  (forall st st' row, body st row = OK st' -> same_skeleton st.2 st'.2) ->
  forall rows st st', for_each body rows st = OK st' -> same_skeleton st.2 st'.2.
Proof.
  intros Hbody rows. induction rows as [|row rows IH]; intros st st' H; simpl in H.
  - injection H as <-. apply same_skeleton_refl.
  - step_OK H. eapply same_skeleton_trans; [eapply Hbody; exact Hm | apply IH, H].
Qed.

Lemma registry_wf_skeleton (g g' : globals) :
  registry_wf g -> same_skeleton g g' -> registry_wf g'.
Proof.
  intros [Hnd Hna Hdk Hak Hmem Hlist] (Hd & Ha & Had & Hr).
  constructor; rewrite ?Hd, ?Ha, ?Had; auto.
  - intros d. rewrite Hdk. specialize (Hr d).
    destruct (domain_data g !! d), (domain_data g' !! d); try tauto;
      split; intros [? ?]; try discriminate; eauto.
  - intros d r' Hr'. specialize (Hr d). rewrite Hr' in Hr.
    destruct (domain_data g !! d) as [r|] eqn:Hrd; [|destruct Hr].
    destruct Hr as [_ ->]. exact (Hlist d r Hrd).
Qed.

Lemma sort_globals_wf (g : globals) : registry_wf g -> registry_wf (sort_globals g).
Proof.
  intros [Hnd Hna Hdk Hak Hmem Hlist]. constructor; simpl.
  - apply py_sort_NoDup, Hnd.
  - apply py_sort_NoDup, Hna.
  - intros d. rewrite py_sort_In. apply Hdk.
  - intros a. rewrite py_sort_In. apply Hak.
  - intros a members Hm. destruct (Hmem a members Hm) as [Hne Hsub].
    split; [exact Hne|]. intros d Hd. apply py_sort_In, Hsub, Hd.
  - exact Hlist.
Qed.

(** The stages of a successful [load_data]. *)
Lemma load_data_stages (domains_csv inspect_csv tls_csv analytics_csv : list (list string))
    (g : globals) :
  load_data domains_csv inspect_csv tls_csv analytics_csv = OK g ->
  exists g0,
    for_each load_domain_row domains_csv empty_globals = OK g0 /\
    same_skeleton (sort_globals g0) g.
Proof.
  intros H. unfold load_data in H. repeat step_OK H.
  exists v. split; [exact Hm|].
  apply (scan_loop_skeleton _ load_inspect_row_skeleton) in Hm0.
  apply (scan_loop_skeleton _ load_tls_row_skeleton) in Hm1.
  apply (scan_loop_skeleton _ load_analytics_row_skeleton) in Hm2.
  simpl in Hm0, Hm1, Hm2.
  eapply same_skeleton_trans; [exact Hm0|].
  eapply same_skeleton_trans; [exact Hm1 | exact Hm2].
Qed.

Lemma load_data_wf (domains_csv inspect_csv tls_csv analytics_csv : list (list string))
    (g : globals) :
  load_data domains_csv inspect_csv tls_csv analytics_csv = OK g -> registry_wf g.
Proof.
  intros H. apply load_data_stages in H. destruct H as (g0 & Hloop & Hskel).
  apply (registry_wf_skeleton (sort_globals g0)); [|exact Hskel].
  apply sort_globals_wf.
  eapply (for_each_invariant registry_wf); [| |exact Hloop].
  - intros st x st'. apply load_domain_row_wf.
  - apply empty_globals_wf.
Qed.

Lemma same_skeleton_sym (g g' : globals) : same_skeleton g g' -> same_skeleton g' g.
Proof.
  intros (Hd & Ha & Had & Hr). repeat split; try congruence.
  intros d. specialize (Hr d).
  destruct (domain_data g !! d), (domain_data g' !! d); try tauto.
  destruct Hr. split; congruence.
Qed.

(** X1: the two global lists come out of [load_data] sorted and without
    duplicates. *)
Theorem load_data_sorted (domains_csv inspect_csv tls_csv analytics_csv : list (list string))
    (g : globals) :
  load_data domains_csv inspect_csv tls_csv analytics_csv = OK g ->
  ascending (domains g) /\ List.NoDup (domains g) /\
  ascending (agencies g) /\ List.NoDup (agencies g).
Proof.
  intros H. pose proof (load_data_wf _ _ _ _ _ H) as Hwf.
  apply load_data_stages in H. destruct H as (g0 & _ & (Hd & Ha & _)).
  simpl in Hd, Ha. rewrite Hd, Ha.
  split; [apply py_sort_ascending|]. split; [rewrite <- Hd; apply Hwf|].
  split; [apply py_sort_ascending|]. rewrite <- Ha. apply Hwf.
Qed.

(** X2: in the loaded registry the listed domains are exactly the keys of
    [domain_data] and the listed agencies exactly the keys of
    [agency_data]; every agency's list is non-empty and holds listed
    domains only; every domain is in the list of the agency it is filed
    under. *)
Theorem load_data_registry (domains_csv inspect_csv tls_csv analytics_csv : list (list string))
    (g : globals) :
  load_data domains_csv inspect_csv tls_csv analytics_csv = OK g ->
  (forall d, In d (domains g) <-> is_Some (domain_data g !! d)) /\
  (forall a, In a (agencies g) <-> is_Some (agency_data g !! a)) /\
  (forall a members, agency_data g !! a = Some members ->
     members <> [] /\ forall d, In d members -> In d (domains g)) /\
  (forall d r, domain_data g !! d = Some r ->
     In (agency r) (agencies g) /\
     exists members, agency_data g !! agency r = Some members /\ In d members).
Proof.
  intros H. destruct (load_data_wf _ _ _ _ _ H) as [_ _ Hdk Hak Hmem Hlist].
  split; [exact Hdk|]. split; [exact Hak|]. split; [exact Hmem|].
  intros d r Hr. destruct (Hlist d r Hr) as (members & Hm & Hin).
  split; [apply Hak; eauto | eauto].
Qed.

(** X3: the scan files only attach sub-records: the domain and agency
    lists, the agency membership lists, the set of registry keys and each
    domain's branch and agency are fixed by [domains.csv] alone. *)
Theorem scan_files_only_attach
    (domains_csv inspect_csv tls_csv analytics_csv : list (list string))
    (inspect_csv' tls_csv' analytics_csv' : list (list string)) (g g' : globals) :
  load_data domains_csv inspect_csv tls_csv analytics_csv = OK g ->
  load_data domains_csv inspect_csv' tls_csv' analytics_csv' = OK g' ->
  domains g' = domains g /\ agencies g' = agencies g /\
  agency_data g' = agency_data g /\
  (forall d, domain_data g' !! d = None <-> domain_data g !! d = None) /\
  (forall d r r', domain_data g !! d = Some r -> domain_data g' !! d = Some r' ->
     branch r' = branch r /\ agency r' = agency r).
Proof.
  intros H H'. apply load_data_stages in H, H'.
  destruct H as (g0 & Hloop & Hs). destruct H' as (g0' & Hloop' & Hs').
  assert (g0' = g0) by congruence. subst g0'.
  pose proof (same_skeleton_trans _ _ _ (same_skeleton_sym _ _ Hs) Hs')
    as (Hd & Ha & Had & Hr).
  split; [exact Hd|]. split; [exact Ha|]. split; [exact Had|]. split.
  - intros d. specialize (Hr d).
    destruct (domain_data g !! d), (domain_data g' !! d); try tauto;
      split; intros; discriminate.
  - intros d r r' Hrd Hrd'. specialize (Hr d). rewrite Hrd, Hrd' in Hr. exact Hr.
Qed.

Lemma lower_ascii_idempotent (c : ascii) : lower_ascii (lower_ascii c) = lower_ascii c.
Proof. destruct c as [[] [] [] [] [] [] [] []]; reflexivity. Qed.

Lemma lower_idempotent (s : string) : lower (lower s) = lower s.
Proof.
  induction s as [|c s IH]; simpl; [reflexivity|].
  rewrite lower_ascii_idempotent, IH. reflexivity.
Qed.

Lemma branch_for_values (a : string) :
  In (branch_for a) ["legislative"; "judicial"; "non-federal"; "executive"].
Proof.
  unfold branch_for.
  destruct (str_in a legislative_agencies); [simpl; auto|].
  destruct (str_in a ["The Judicial Branch (Courts)"]); [simpl; auto|].
  destruct (str_in a ["Non-Federal Agency"]); simpl; auto.
Qed.

Lemma branch_for_non_federal (a : string) :
  branch_for a = "non-federal" <-> a = "Non-Federal Agency".
Proof.
  split; [|intros ->; reflexivity].
  unfold branch_for.
  destruct (str_in a legislative_agencies); [discriminate|].
  destruct (str_in a ["The Judicial Branch (Courts)"]); [discriminate|].
  destruct (str_in a ["Non-Federal Agency"]) eqn:Hin; [|discriminate].
  intros _. apply str_in_true in Hin. destruct Hin as [<-|[]]. reflexivity.
Qed.

Lemma load_domain_row_keys (g g' : globals) (row : list string) :
  key_rule g -> load_domain_row g row = OK g' -> key_rule g'.
Proof.
  intros Hg H. unfold load_domain_row in H.
  repeat step_OK H; try exact Hg.
  intros d r. simpl. destruct (decide (lower v = d)) as [<-|Hne].
  - rewrite lookup_insert_eq. intros [= <-]. simpl.
    split; [apply lower_idempotent|]. split; [exact Hc|]. split; [reflexivity|].
    apply str_eq_false. exact Hc1.
  - rewrite lookup_insert_ne by exact Hne. apply Hg.
Qed.

(** X4: every key of the loaded registry is lower-case and does not start
    with ["domain"]; every record's branch is the branch of its agency and
    is one of ["executive"], ["legislative"], ["judicial"]; no record is
    filed under ["Non-Federal Agency"]. *)
Theorem load_data_keys (domains_csv inspect_csv tls_csv analytics_csv : list (list string))
    (g : globals) (d : string) (r : domain_rec) :
  load_data domains_csv inspect_csv tls_csv analytics_csv = OK g ->
  domain_data g !! d = Some r ->
  lower d = d /\ startswith d "domain" = false /\
  branch r = branch_for (agency r) /\
  In (branch r) ["executive"; "legislative"; "judicial"] /\
  agency r <> "Non-Federal Agency".
Proof.
  intros H Hr. apply load_data_stages in H. destruct H as (g0 & Hloop & Hs).
  assert (Hk : key_rule g0).
  { eapply (for_each_invariant key_rule); [| |exact Hloop].
    - intros st x st'. apply load_domain_row_keys.
    - intros d' r'. simpl. rewrite lookup_empty. discriminate. }
  destruct Hs as (_ & _ & _ & Hrec). specialize (Hrec d). simpl in Hrec.
  rewrite Hr in Hrec. destruct (domain_data g0 !! d) as [r0|] eqn:Hr0; [|destruct Hrec].
  destruct Hrec as [Hb Ha]. destruct (Hk d r0 Hr0) as (Hlow & Hstart & Hbr & Hnf).
  split; [exact Hlow|]. split; [exact Hstart|].
  assert (Hbr' : branch r = branch_for (agency r)) by congruence.
  assert (Hnf' : branch r <> "non-federal") by congruence.
  split; [exact Hbr'|]. split.
  - pose proof (branch_for_values (agency r)) as Hv. rewrite <- Hbr' in Hv.
    simpl in Hv. simpl.
    destruct Hv as [Hv|[Hv|[Hv|[Hv|[]]]]]; auto.
  - intros Hag. apply Hnf'. rewrite Hbr'. apply branch_for_non_federal, Hag.
Qed.

(** X5: a row of [domains.csv] changes the globals exactly when its first
    cell does not start with ["domain"] (in any case), its type is
    ["Federal Agency"] and its agency is not ["Non-Federal Agency"]. *)
Theorem load_domain_row_changes (g g' : globals) (name domain_type a : string)
    (more : list string) :
  load_domain_row g (name :: domain_type :: a :: more) = OK g' ->
  g' <> g <->
    startswith (lower name) "domain" = false /\
    domain_type = "Federal Agency" /\ a <> "Non-Federal Agency".
Proof.
  intros H. unfold load_domain_row in H. simpl in H.
  destruct (startswith (lower name) "domain") eqn:Hhead.
  { injection H as <-. split; [congruence | intros (? & _); discriminate]. }
  destruct (str_eq domain_type "Federal Agency") eqn:Hty; simpl in H.
  2:{ injection H as <-. apply str_eq_false in Hty.
      split; [congruence | intros (_ & ? & _); contradiction]. }
  apply str_eq_true in Hty.
  destruct (str_eq (branch_for a) "non-federal") eqn:Hbr.
  { injection H as <-. apply str_eq_true, branch_for_non_federal in Hbr.
    split; [congruence | intros (_ & _ & ?); contradiction]. }
  apply str_eq_false in Hbr.
  assert (Ha : a <> "Non-Federal Agency")
    by (intros Ha; apply Hbr, branch_for_non_federal, Ha).
  split; [auto|]. intros _.
  repeat step_OK H. apply getitem_OK in Hm. intros Heq.
  destruct (str_in a (agencies g)) eqn:Hin.
  - apply (f_equal agency_data) in Heq. simpl in Heq.
    apply (f_equal (fun m => m !! a)) in Heq.
    rewrite lookup_insert_eq, Hm in Heq. injection Heq as Heq.
    apply (f_equal (@length string)) in Heq. rewrite length_app in Heq.
    simpl in Heq. lia.
  - apply (f_equal agencies) in Heq. simpl in Heq.
    apply (f_equal (@length string)) in Heq. rewrite length_app in Heq.
    simpl in Heq. lia.
Qed.

(** ** Rows as dicts *)

Lemma fill_row_succeeds (headers : list string) (cells : list string) :
  forall (i : nat) (acc : gmap string string),
  (i + length cells <= length headers)%nat ->
  exists d, fill_row headers i cells acc = OK d.
Proof.
  induction cells as [|cell cells IH]; intros i acc Hlen; simpl.
  - eauto.
  - simpl in Hlen. unfold index.
    destruct (headers !! i) as [h|] eqn:Hh.
    + simpl. apply IH. lia.
    + apply lookup_ge_None in Hh. lia.
Qed.

Lemma fill_row_overflows (headers : list string) (cells : list string) :
  forall (i : nat) (acc : gmap string string),
  (i <= length headers < i + length cells)%nat ->
  fill_row headers i cells acc = Err IndexError.
Proof.
  induction cells as [|cell cells IH]; intros i acc Hlen; simpl in *; [lia|].
  unfold index. destruct (headers !! i) as [h|] eqn:Hh.
  - simpl. apply IH. apply lookup_lt_Some in Hh. lia.
  - reflexivity.
Qed.

Lemma fill_row_lookup (headers : list string) (cells : list string) :
  forall (i : nat) (acc d : gmap string string) (k c : string),
  fill_row headers i cells acc = OK d ->
  d !! k = Some c <->
    (exists j, headers !! (i + j)%nat = Some k /\ cells !! j = Some c /\
       forall j', (j < j' < length cells)%nat -> headers !! (i + j')%nat <> Some k) \/
    (acc !! k = Some c /\
       forall j', (j' < length cells)%nat -> headers !! (i + j')%nat <> Some k).
Proof.
  induction cells as [|cell cells IH]; intros i acc d k c H; simpl in H.
  - injection H as <-. split.
    + intros Hk. right. split; [exact Hk|]. simpl. intros j' Hj'. lia.
    + intros [(j & _ & Hj & _)|[Hk _]]; [discriminate | exact Hk].
  - step_OK H. rename v into h. unfold index in Hm.
    destruct (headers !! i) as [h'|] eqn:Hh; [|discriminate].
    injection Hm as ->. rewrite (IH _ _ _ k c H). clear IH H. split.
    + intros [(j & Hj & Hc & Hlast)|[Hacc Hnone]].
      * left. exists (S j). replace (i + S j)%nat with (S i + j)%nat by lia.
        split; [exact Hj|]. split; [exact Hc|].
        intros j' Hj'. simpl in Hj'. destruct j' as [|j']; [lia|].
        replace (i + S j')%nat with (S i + j')%nat by lia. apply Hlast. lia.
      * destruct (decide (h = k)) as [->|Hne].
        -- rewrite lookup_insert_eq in Hacc. injection Hacc as ->.
           left. exists 0%nat. rewrite Nat.add_0_r. split; [exact Hh|].
           split; [reflexivity|]. intros j' Hj'. simpl in Hj'.
           destruct j' as [|j']; [lia|].
           replace (i + S j')%nat with (S i + j')%nat by lia. apply Hnone. lia.
        -- rewrite lookup_insert_ne in Hacc by exact Hne.
           right. split; [exact Hacc|]. intros j' Hj'. simpl in Hj'.
           destruct j' as [|j'].
           ++ rewrite Nat.add_0_r, Hh. congruence.
           ++ replace (i + S j')%nat with (S i + j')%nat by lia. apply Hnone. lia.
    + intros [(j & Hj & Hc & Hlast)|[Hacc Hnone]].
      * destruct j as [|j].
        -- simpl in Hc. injection Hc as ->. rewrite Nat.add_0_r, Hh in Hj.
           injection Hj as ->. right. split; [apply lookup_insert_eq|].
           intros j' Hj'. replace (S i + j')%nat with (i + S j')%nat by lia.
           apply Hlast. simpl. lia.
        -- left. exists j. replace (S i + j)%nat with (i + S j)%nat by lia.
           split; [exact Hj|]. split; [exact Hc|]. intros j' Hj'.
           replace (S i + j')%nat with (i + S j')%nat by lia.
           apply Hlast. simpl. lia.
      * right. split.
        -- rewrite lookup_insert_ne; [exact Hacc|].
           intros ->. apply (Hnone 0%nat); [simpl; lia|].
           rewrite Nat.add_0_r. exact Hh.
        -- intros j' Hj'. replace (S i + j')%nat with (i + S j')%nat by lia.
           apply Hnone. simpl. lia.
Qed.

(** X6: [fill_row] builds a dict exactly when the row is no longer than
    the header row and raises [IndexError] otherwise; in the dict a key
    holds the cell under the last header of that name within the row's
    length, and nothing else. *)
Theorem fill_row_dict (headers row : list string) :
  ((length row <= length headers)%nat ->
     exists d, fill_row headers 0 row ∅ = OK d) /\
  ((length headers < length row)%nat ->
     fill_row headers 0 row ∅ = Err IndexError) /\
  (forall d k c,
     fill_row headers 0 row ∅ = OK d ->
     d !! k = Some c <->
       exists j, headers !! j = Some k /\ row !! j = Some c /\
         forall j', (j < j' < length row)%nat -> headers !! j' <> Some k).
Proof.
  split; [|split].
  - intros H. apply fill_row_succeeds. simpl. exact H.
  - intros H. apply fill_row_overflows. simpl. lia.
  - intros d k c H. rewrite (fill_row_lookup headers row 0 ∅ d k c H). simpl. split.
    + intros [Hj|[Hk _]]; [exact Hj | rewrite lookup_empty in Hk; discriminate].
    + intros Hj. left. exact Hj.
Qed.


(** ** Rows and eligibility *)

Lemma yes_true (m : result bool) : yes m = true <-> m = OK true.
Proof.
  destruct m as [[]|]; simpl; split; intros H; try reflexivity; discriminate.
Qed.

Lemma not_https_not_analytics (g : globals) (d : string) :
  evaluating_for_https g d = OK false -> evaluating_for_analytics g d = OK false.
Proof.
  intros H. unfold evaluating_for_https in H. unfold evaluating_for_analytics.
  step_OK H. rewrite Hm. simpl.
  destruct (inspect v) as [i|]; [|reflexivity].
  destruct (analytics v); [|reflexivity].
  step_OK H. rewrite Hm0. simpl. injection H as ->. reflexivity.
Qed.

Lemma analytics_implies_https (g : globals) (domain : string) :
  evaluating_for_analytics g domain = OK true ->
  evaluating_for_https g domain = OK true /\
  exists r, domain_data g !! domain = Some r /\ branch r = "executive".
Proof.
  intros H.
  assert (Hr : exists r, domain_data g !! domain = Some r).
  { unfold evaluating_for_analytics in H. step_OK H.
    apply getitem_OK in Hm. eauto. }
  destruct Hr as [r Hr].
  apply (evaluating_for_analytics_true g domain r Hr) in H.
  destruct H as (i & a & Hi & _ & Hlive & _ & Hbr).
  split; [|eauto].
  apply (evaluating_for_https_true g domain r Hr). eauto.
Qed.

(** X7: a domain that tests eligible for the analytics track also tests
    eligible for the HTTPS track and is filed under the executive branch;
    a domain that tests not eligible for the HTTPS track tests not
    eligible for the analytics track either, without raising. *)
Theorem analytics_eligible_is_https_eligible (g : globals) (domain : string) :
  (evaluating_for_analytics g domain = OK true ->
     evaluating_for_https g domain = OK true /\
     exists r, domain_data g !! domain = Some r /\ branch r = "executive") /\
  (evaluating_for_https g domain = OK false ->
     evaluating_for_analytics g domain = OK false).
Proof.
  split; [apply analytics_implies_https | apply not_https_not_analytics].
Qed.

Lemma tls_part_of_no_https (https : Z) (tls : option (gmap string string)) (t : tls_part) :
  https <= 0 -> tls_part_of https tls = OK t -> t = no_tls.
Proof.
  intros Hle H. unfold tls_part_of in H. apply Z.leb_le in Hle. rewrite Hle in H.
  congruence.
Qed.

Lemma behavior_of_present (i : gmap string string) (https behavior : Z) :
  behavior_of i https = OK behavior -> 0 < https -> 1 <= behavior.
Proof.
  intros H Hlt. unfold behavior_of in H. apply Z.leb_gt in Hlt. rewrite Hlt in H.
  repeat step_OK H; lia.
Qed.

Lemma hsts_of_present (i : gmap string string) (https : Z) (age : option Z) (hsts : Z) :
  hsts_of i https age = OK hsts -> 0 < https -> 0 <= hsts.
Proof.
  intros H Hlt. unfold hsts_of in H. apply Z.leb_gt in Hlt. rewrite Hlt in H.
  repeat step_OK H; lia.
Qed.

Lemma tls_part_of_fields (https : Z) (tls : option (gmap string string)) (t : tls_part) :
  tls_part_of https tls = OK t ->
  (t = no_tls /\ (https <= 0 \/ tls = None)) \/
  (0 < https /\
   exists rec letter secrecy n algorithm c4 s3 t12,
     tls = Some rec /\
     rec !! "Grade" = Some letter /\ grade_table !! letter = Some (grade t) /\
     rec !! "Forward Secrecy" = Some secrecy /\ py_int secrecy = OK n /\
     fs t = Some n /\
     rec !! "Signature Algorithm" = Some algorithm /\ sig t = Some algorithm /\
     rec !! "RC4" = Some c4 /\ rc4 t = Some (boolean_for c4) /\
     rec !! "SSLv3" = Some s3 /\ ssl3 t = Some (boolean_for s3) /\
     rec !! "TLSv1.2" = Some t12 /\ tls12 t = Some (boolean_for t12)).
Proof.
  intros H. unfold tls_part_of in H.
  destruct (Z.leb https 0) eqn:Hle.
  { injection H as <-. apply Z.leb_le in Hle. auto. }
  apply Z.leb_gt in Hle.
  destruct tls as [rec|]; [|injection H as <-; auto].
  right. split; [exact Hle|]. repeat step_OK H. simpl.
  repeat match goal with Hg : getitem _ _ = OK _ |- _ => apply getitem_OK in Hg end.
  exists rec, v, v1, v2, v3, v4, v5, v6. auto 20.
Qed.

(** Everything [https_row_for] puts in a produced row. *)
Lemma https_row_for_sections (g : globals) (domain : string) (row : https_row) :
  https_row_for g domain = OK row ->
  exists r i t canonical,
    domain_data g !! domain = Some r /\ inspect r = Some i /\
    i !! "Canonical" = Some canonical /\
    https_of i = OK (row_https row) /\
    behavior_of i (row_https row) = OK (row_https_forced row) /\
    hsts_age_of i = OK (row_hsts_age row) /\
    hsts_of i (row_https row) (row_hsts_age row) = OK (row_hsts row) /\
    tls_part_of (row_https row) (tls r) = OK t /\
    row = HttpsRow domain canonical (agency r) (row_https row) (row_https_forced row)
            (row_hsts row) (row_hsts_age row)
            (grade t) (fs t) (sig t) (rc4 t) (ssl3 t) (tls12 t).
Proof.
  intros H. unfold https_row_for in H. repeat step_OK H. simpl.
  apply getitem_OK in Hm, Hm1.
  destruct (inspect v) as [i|] eqn:Hi; simpl in Hm0; [|discriminate].
  injection Hm0 as <-. exists v, i, v6, v1. auto 12.
Qed.

(** X8: a produced row names its domain and the domain's agency, and its
    scores hang together: presence >= 1 exactly when enforcement >= 1 and
    exactly when the HSTS score is >= 0, and a grade >= 0 needs
    presence >= 1. *)
Theorem row_scores_cohere (g : globals) (domain : string) (row : https_row) :
  https_row_for g domain = OK row ->
  row_domain row = domain /\
  (exists r, domain_data g !! domain = Some r /\ row_agency row = agency r) /\
  (1 <= row_https row <-> 1 <= row_https_forced row) /\
  (1 <= row_https row <-> 0 <= row_hsts row) /\
  (0 <= row_grade row -> 1 <= row_https row).
Proof.
  intros H. apply https_row_for_sections in H.
  destruct H as (r & i & t & canonical & Hr & Hi & Hc & Hhttps & Hbeh & Hage
                 & Hhsts & Htls & Hrow).
  split; [rewrite Hrow; reflexivity|].
  split; [exists r; split; [exact Hr | rewrite Hrow; reflexivity]|].
  assert (Hgrade : row_grade row = grade t) by (rewrite Hrow; reflexivity).
  destruct (Z_le_gt_dec (row_https row) 0) as [Hle|Hgt].
  - destruct (behavior_of_range _ _ _ Hbeh) as [_ Hb].
    destruct (hsts_of_range _ _ _ _ Hhsts) as [_ Hh].
    rewrite (tls_part_of_no_https _ _ _ Hle Htls) in Hgrade. simpl in Hgrade.
    rewrite (Hb Hle), (Hh Hle), Hgrade. lia.
  - pose proof (behavior_of_present _ _ _ Hbeh ltac:(lia)).
    pose proof (hsts_of_present _ _ _ _ Hhsts ltac:(lia)). lia.
Qed.

(** X9: the TLS part of a produced row is all or nothing: either the grade
    is -1 and the five TLS attributes are [None], or the presence score is
    > 0, the grade is the table entry of the record's ['Grade'] (so it is
    >= 4 exactly for A-, A and A+) and the five attributes are read from
    the TLS record. *)
Theorem row_tls_part (g : globals) (domain : string) (row : https_row) :
  https_row_for g domain = OK row ->
  (row_grade row = -1 /\ row_fs row = None /\ row_sig row = None /\
   row_rc4 row = None /\ row_ssl3 row = None /\ row_tls12 row = None) \/
  (0 < row_https row /\
   exists r rec letter secrecy n algorithm c4 s3 t12,
     domain_data g !! domain = Some r /\ tls r = Some rec /\
     rec !! "Grade" = Some letter /\ In (letter, row_grade row)
       [("F", 0); ("T", 1); ("C", 2); ("B", 3); ("A-", 4); ("A", 5); ("A+", 6)] /\
     (4 <= row_grade row <-> In letter ["A-"; "A"; "A+"]) /\
     rec !! "Forward Secrecy" = Some secrecy /\
     py_int secrecy = OK n /\ row_fs row = Some n /\
     rec !! "Signature Algorithm" = Some algorithm /\ row_sig row = Some algorithm /\
     rec !! "RC4" = Some c4 /\ row_rc4 row = Some (boolean_for c4) /\
     rec !! "SSLv3" = Some s3 /\ row_ssl3 row = Some (boolean_for s3) /\
     rec !! "TLSv1.2" = Some t12 /\ row_tls12 row = Some (boolean_for t12)).
Proof.
  intros H. apply https_row_for_sections in H.
  destruct H as (r & i & t & canonical & Hr & _ & _ & _ & _ & _ & _ & Htls & Hrow).
  apply tls_part_of_fields in Htls.
  destruct Htls as [[-> _]|(Hlt & rec & letter & secrecy & n & algorithm & c4 & s3 & t12
                            & Ht & Hl & Hg & Hs & Hn & Hfs & Ha & Hsig & H4 & Hrc4
                            & H3 & Hssl3 & H12 & Htls12)].
  - left. rewrite Hrow. simpl. auto 10.
  - right. split; [exact Hlt|].
    exists r, rec, letter, secrecy, n, algorithm, c4, s3, t12.
    rewrite Hrow. simpl.
    pose proof (grade_table_lookup _ _ Hg) as Hin.
    split; [exact Hr|]. split; [exact Ht|]. split; [exact Hl|]. split; [exact Hin|].
    split.
    { simpl in Hin.
      repeat (destruct Hin as [Hin|Hin];
              [injection Hin as <- <-; simpl; split;
               [intros; first [lia | auto] | intros; first [lia | intuition discriminate]]|]).
      destruct Hin. }
    auto 15.
Qed.

(** Turns the successful tests of a ladder into facts about the record. *)
Ltac ladder_facts :=
  repeat match goal with
  | H : getitem _ _ = OK _ |- _ => apply getitem_OK in H
  | H : str_eq _ _ = true |- _ => apply str_eq_true in H; subst
  | H : str_eq _ _ = false |- _ => apply str_eq_false in H
  end.

(** X10: the presence score read off the inspect record: 0 exactly when
    ['Downgrades HTTPS'] is ["True"]; otherwise 2 exactly when
    ['Valid HTTPS'] is ["True"]; otherwise 1 exactly when
    ['HTTPS Bad Chain'] is ["True"]. *)
Theorem presence_score (i : gmap string string) (https : Z) :
  https_of i = OK https ->
  exists downgrades,
    i !! "Downgrades HTTPS" = Some downgrades /\
    (https = 0 <-> downgrades = "True") /\
    (https = 2 <-> downgrades <> "True" /\ i !! "Valid HTTPS" = Some "True") /\
    (https = 1 <->
       downgrades <> "True" /\
       (exists valid, i !! "Valid HTTPS" = Some valid /\ valid <> "True") /\
       i !! "HTTPS Bad Chain" = Some "True").
Proof.
  intros H. unfold https_of in H. repeat step_OK H; ladder_facts.
  - exists "True". split; [exact Hm|]. repeat split; try tauto; try lia;
      intros; try discriminate; tauto.
  - exists v. split; [exact Hm|]. split; [|split].
    + split; [lia | congruence].
    + split; [auto | reflexivity].
    + split; [lia | intros (_ & (valid & Hv & Hne) & _); congruence].
  - exists v. split; [exact Hm|]. split; [|split].
    + split; [lia | congruence].
    + split; [lia | intros (_ & Hv); congruence].
    + split; [eauto 10 | reflexivity].
  - exists v. split; [exact Hm|]. split; [|split].
    + split; [lia | congruence].
    + split; [lia | intros (_ & Hv); congruence].
    + split; [lia | intros (_ & _ & Hb); congruence].
Qed.

Lemma strict_test_OK (i : gmap string string) (b : bool) :
  strict_test i = OK b ->
  exists strictly,
    i !! "Strictly Forces HTTPS" = Some strictly /\
    (b = true <->
       strictly = "True" /\
       (i !! "Defaults to HTTPS" = Some "True" \/ i !! "Redirect" = Some "True")).
Proof.
  intros H. unfold strict_test in H. repeat step_OK H; ladder_facts.
  - exists "True". split; [exact Hm|]. split; [auto | reflexivity].
  - exists "True". split; [exact Hm|]. split.
    + intros Hb. apply str_eq_true in Hb. subst. auto.
    + intros (_ & [Hd|Hr]); [congruence|].
      rewrite Hm1 in Hr. injection Hr as ->. reflexivity.
  - exists v. split; [exact Hm|]. split; [discriminate | intros (? & _); congruence].
Qed.

Lemma default_test_OK (i : gmap string string) (b : bool) :
  default_test i = OK b ->
  exists strictly,
    i !! "Strictly Forces HTTPS" = Some strictly /\
    (b = true <-> strictly = "False" /\ i !! "Defaults to HTTPS" = Some "True").
Proof.
  intros H. unfold default_test in H. repeat step_OK H; ladder_facts.
  - exists "False". split; [exact Hm|]. split.
    + intros Hb. apply str_eq_true in Hb. subst. auto.
    + intros (_ & Hd). rewrite Hm0 in Hd. injection Hd as ->. reflexivity.
  - exists v. split; [exact Hm|]. split; [discriminate | intros (? & _); congruence].
Qed.

(** X11: with presence > 0, the enforcement score is 3 exactly when
    ['Strictly Forces HTTPS'] is ["True"] and one of ['Defaults to HTTPS']
    and ['Redirect'] is ["True"]; it is 2 exactly when
    ['Strictly Forces HTTPS'] is ["False"] and ['Defaults to HTTPS'] is
    ["True"]; it is 1 in every other case, among them a strict flag that
    is neither ["True"] nor ["False"]. *)
Theorem enforcement_score (i : gmap string string) (https behavior : Z) :
  behavior_of i https = OK behavior ->
  0 < https ->
  exists strictly,
    i !! "Strictly Forces HTTPS" = Some strictly /\
    (behavior = 3 <->
       strictly = "True" /\
       (i !! "Defaults to HTTPS" = Some "True" \/ i !! "Redirect" = Some "True")) /\
    (behavior = 2 <->
       strictly = "False" /\ i !! "Defaults to HTTPS" = Some "True") /\
    (behavior = 1 <->
       ~ (strictly = "True" /\
          (i !! "Defaults to HTTPS" = Some "True" \/ i !! "Redirect" = Some "True")) /\
       ~ (strictly = "False" /\ i !! "Defaults to HTTPS" = Some "True")).
Proof.
  intros H Hlt. unfold behavior_of in H. apply Z.leb_gt in Hlt. rewrite Hlt in H.
  step_OK H. rename v into strict.
  destruct (strict_test_OK i strict Hm) as (s & Hs & Hstrict).
  exists s. split; [exact Hs|].
  destruct strict.
  - injection H as <-. destruct Hstrict as [Hstrict _].
    destruct (Hstrict eq_refl) as [-> Hor].
    split; [tauto|]. split; [|split; [lia | tauto]].
    split; [lia | intros [? _]; discriminate].
  - step_OK H. rename v into yes_.
    destruct (default_test_OK i yes_ Hm0) as (s' & Hs' & Hdefault).
    assert (s' = s) by congruence. subst s'.
    assert (Hnot : ~ (s = "True" /\
              (i !! "Defaults to HTTPS" = Some "True" \/ i !! "Redirect" = Some "True"))).
    { intros Hc. apply Hstrict in Hc. discriminate. }
    destruct yes_.
    + injection H as <-. destruct Hdefault as [Hdefault _].
      specialize (Hdefault eq_refl).
      split; [split; [lia | tauto]|]. split; [tauto|]. split; [lia | tauto].
    + injection H as <-.
      assert (Hnot' : ~ (s = "False" /\ i !! "Defaults to HTTPS" = Some "True")).
      { intros Hc. apply Hdefault in Hc. discriminate. }
      split; [split; [lia | tauto]|]. split; [split; [lia | tauto]|]. tauto.
Qed.

(** X12: a downgrading domain gets presence 0, enforcement 0, HSTS -1,
    grade -1 and no TLS attributes whatever its other flags and its TLS
    record say; only ['Canonical'] and a readable ['HSTS Max Age'] are
    needed for the row. *)
Theorem downgrade_row (g : globals) (domain : string) (r : domain_rec)
    (i : gmap string string) (canonical : string) (hsts_age : option Z) :
  domain_data g !! domain = Some r -> inspect r = Some i ->
  i !! "Canonical" = Some canonical ->
  i !! "Downgrades HTTPS" = Some "True" ->
  hsts_age_of i = OK hsts_age ->
  https_row_for g domain
  = OK (HttpsRow domain canonical (agency r) 0 0 (-1) hsts_age (-1)
          None None None None None).
Proof.
  intros Hr Hi Hc Hd Hage. unfold https_row_for.
  rewrite (getitem_Some _ _ _ Hr). simpl. rewrite Hi. simpl.
  rewrite (getitem_Some _ _ _ Hc). simpl.
  unfold https_of. rewrite (getitem_Some _ _ _ Hd). simpl.
  rewrite Hage. reflexivity.
Qed.

(** X13: for a domain eligible for the analytics track, the analytics row
    exists exactly when the inspect record has ['Canonical'] and the
    analytics record has ['Participates in Analytics']; its participation
    score is 1 for ["True"], 0 for ["False"] and -1 for anything else. *)
Theorem analytics_row_content (g : globals) (domain : string) :
  evaluating_for_analytics g domain = OK true ->
  exists r i a,
    domain_data g !! domain = Some r /\ inspect r = Some i /\ analytics r = Some a /\
    forall row,
      analytics_row_for g domain = OK row <->
      exists canonical participates,
        i !! "Canonical" = Some canonical /\
        a !! "Participates in Analytics" = Some participates /\
        row = AnalyticsRow domain canonical (agency r)
                (if str_eq participates "True" then 1
                 else if str_eq participates "False" then 0 else -1).
Proof.
  intros H.
  assert (Hr : exists r, domain_data g !! domain = Some r).
  { unfold evaluating_for_analytics in H. step_OK H.
    apply getitem_OK in Hm. eauto. }
  destruct Hr as [r Hr].
  apply (evaluating_for_analytics_true g domain r Hr) in H.
  destruct H as (i & a & Hi & Ha & _).
  exists r, i, a. split; [exact Hr|]. split; [exact Hi|]. split; [exact Ha|].
  intros row. unfold analytics_row_for.
  rewrite (getitem_Some _ _ _ Hr). simpl. rewrite Ha, Hi. simpl. split.
  - intros H. repeat step_OK H. apply getitem_OK in Hm, Hm0.
    exists v, v0. auto.
  - intros (canonical & participates & Hc & Hp & ->).
    rewrite (getitem_Some _ _ _ Hc). simpl.
    rewrite (getitem_Some _ _ _ Hp). reflexivity.
Qed.


(** ** The two passes of [process_domains] *)

Lemma yes_OK (e : bool) : yes (OK e) = e.
Proof. destruct e; reflexivity. Qed.

Lemma domain_loop (g : globals) (ds : list string) :
  forall t0 t,
  for_each (domain_pass g) ds t0 = OK t ->
  exists rows arows,
    t = Tables (https_domains t0 ++ rows)%list (analytics_domains t0 ++ arows)%list
          (https_agencies t0) (analytics_agencies t0) /\
    Forall2 (fun d row => https_row_for g d = OK row) (https_eligible g ds) rows /\
    Forall2 (fun d row => analytics_row_for g d = OK row) (analytics_eligible g ds) arows.
Proof.
  induction ds as [|d ds IH]; intros t0 t H; simpl in H.
  - injection H as <-. exists [], []. rewrite !app_nil_r. destruct t0. simpl.
    split; [reflexivity|]. split; constructor.
  - step_OK H. rename v into t1. unfold domain_pass in Hm.
    step_OK Hm. rename v into e. step_OK Hm. rename v into t'. step_OK Hm.
    rename v into e'.
    destruct (IH _ _ H) as (rows & arows & -> & Hrows & Harows). clear IH H.
    unfold https_eligible, analytics_eligible in *. simpl.
    rewrite Hm0, Hm2, !yes_OK.
    destruct e; destruct e'; repeat step_OK Hm1; repeat step_OK Hm; simpl.
    + exists (v :: rows), (v0 :: arows). rewrite <- !app_assoc. simpl.
      split; [reflexivity|]. split; constructor; assumption.
    + exists (v :: rows), arows. rewrite <- !app_assoc. simpl.
      split; [reflexivity|]. split; [constructor; assumption | assumption].
    + exists rows, (v :: arows). rewrite <- !app_assoc. simpl.
      split; [reflexivity|]. split; [assumption | constructor; assumption].
    + exists rows, arows. auto.
Qed.

Lemma tls_part_no_https (https : Z) (tls : option (gmap string string)) (t : tls_part) :
  https <= 0 -> tls_part_of https tls = OK t -> grade t = -1.
Proof.
  intros Hle H. unfold tls_part_of in H. apply Z.leb_le in Hle. rewrite Hle in H.
  injection H as <-. reflexivity.
Qed.

(** The tests of the agency loop on a produced row. *)
Lemma row_tests_need_https (g : globals) (domain : string) (row : https_row) :
  https_row_for g domain = OK row ->
  (Z.geb (row_https_forced row) 2 = true -> Z.geb (row_https row) 1 = true) /\
  (Z.geb (row_hsts row) 1 = true -> Z.geb (row_https row) 1 = true) /\
  (Z.geb (row_grade row) 4 = true -> Z.geb (row_https row) 1 = true).
Proof.
  intros H. apply https_row_for_OK in H.
  destruct H as (r & i & t & _ & _ & _ & Hbeh & _ & Hhsts & Htls & Hgrade).
  destruct (behavior_of_range _ _ _ Hbeh) as [_ Hb].
  destruct (hsts_of_range _ _ _ _ Hhsts) as [_ Hh].
  pose proof (fun Hle => tls_part_no_https _ _ _ Hle Htls) as Hg.
  rewrite <- Hgrade in Hg.
  rewrite !Z.geb_le. repeat split; intros Hx;
    destruct (Z_le_gt_dec (row_https row) 0) as [Hle|Hgt]; try lia;
    specialize (Hb Hle); specialize (Hh Hle); specialize (Hg Hle); lia.
Qed.

Lemma count_member_step (g : globals) (c c' : counters) (d : string) :
  count_member g c d = OK c' ->
  (counters_ok c -> counters_ok c') /\
  https_total c' = https_total c + (if yes (evaluating_for_https g d) then 1 else 0) /\
  analytics_total c'
  = analytics_total c + (if yes (evaluating_for_analytics g d) then 1 else 0).
Proof.
  intros H. unfold count_member in H.
  step_OK H. rename v into e. step_OK H. rename v into c1. step_OK H.
  rename v into e'. rewrite Hm, Hm1, !yes_OK.
  assert (He : e' = true -> e = true).
  { intros ->. destruct (analytics_implies_https g d Hm1) as [He _].
    congruence. }
  destruct e.
  - step_OK Hm0. rename v into row. injection Hm0 as <-.
    destruct (row_tests_need_https g d row Hm2) as (Hf & Hh & Hg).
    destruct e'.
    + step_OK H. injection H as <-. simpl. split; [|lia].
      unfold counters_ok, bump. simpl. intros Hc.
      destruct (Z.geb (row_https_forced row) 2); destruct (Z.geb (row_hsts row) 1);
        destruct (Z.geb (row_grade row) 4); destruct (Z.geb (row_dap v) 1);
        try rewrite (Hf eq_refl); try rewrite (Hh eq_refl); try rewrite (Hg eq_refl);
        try destruct (Z.geb (row_https row) 1); lia.
    + injection H as <-. simpl. split; [|lia].
      unfold counters_ok, bump. simpl. intros Hc.
      destruct (Z.geb (row_https_forced row) 2); destruct (Z.geb (row_hsts row) 1);
        destruct (Z.geb (row_grade row) 4);
        try rewrite (Hf eq_refl); try rewrite (Hh eq_refl); try rewrite (Hg eq_refl);
        try destruct (Z.geb (row_https row) 1); lia.
  - injection Hm0 as <-. destruct e'; [specialize (He eq_refl); discriminate|].
    injection H as <-. split; [auto | lia].
Qed.

Lemma count_loop (g : globals) (members : list string) :
  forall c c',
  for_each (count_member g) members c = OK c' ->
  (counters_ok c -> counters_ok c') /\
  https_total c' = https_total c + Z.of_nat (length (https_eligible g members)) /\
  analytics_total c'
  = analytics_total c + Z.of_nat (length (analytics_eligible g members)).
Proof.
  induction members as [|d members IH]; intros c c' H; simpl in H.
  - injection H as <-. simpl. split; [auto | lia].
  - step_OK H. destruct (count_member_step g c v d Hm) as (Hok & Ht & Ha).
    destruct (IH _ _ H) as (Hok' & Ht' & Ha').
    split; [auto|]. unfold https_eligible, analytics_eligible in *. simpl.
    rewrite Ht', Ha', Ht, Ha.
    destruct (yes (evaluating_for_https g d));
      destruct (yes (evaluating_for_analytics g d)); simpl length; lia.
Qed.

Lemma count_loop_bounds (g : globals) (members : list string) (c : counters) :
  for_each (count_member g) members zero_counters = OK c ->
  0 <= n_https_forced c <= n_https c /\
  0 <= n_hsts c <= n_https c /\
  0 <= n_grade c <= n_https c /\
  n_https c <= https_total c /\
  0 <= n_dap c <= analytics_total c /\
  analytics_total c <= https_total c /\
  https_total c = Z.of_nat (length (https_eligible g members)) /\
  analytics_total c = Z.of_nat (length (analytics_eligible g members)) /\
  https_total c <= Z.of_nat (length members).
Proof.
  intros H. destruct (count_loop g members _ _ H) as (Hok & Ht & Ha).
  simpl in Ht, Ha.
  assert (H0 : counters_ok zero_counters) by (unfold counters_ok; simpl; lia).
  destruct (Hok H0) as (H1 & H2 & H3 & H4 & H5 & H6).
  repeat (split; [assumption|]).
  rewrite Ht. unfold https_eligible.
  pose proof (List.filter_length_le (fun d => yes (evaluating_for_https g d)) members).
  lia.
Qed.

(** X15: when the counting loop of an agency completes, the HTTPS total is
    the number of member occurrences that test HTTPS-eligible and the
    analytics total the number that test analytics-eligible; the counters
    obey 0 <= forced, hsts, grade <= https <= HTTPS total and
    0 <= dap <= analytics total <= HTTPS total <= number of members. *)
Theorem counters_bounded (g : globals) (members : list string) (c : counters) :
  for_each (count_member g) members zero_counters = OK c ->
  0 <= n_https_forced c <= n_https c /\
  0 <= n_hsts c <= n_https c /\
  0 <= n_grade c <= n_https c /\
  n_https c <= https_total c /\
  0 <= n_dap c <= analytics_total c /\
  analytics_total c <= https_total c /\
  https_total c = Z.of_nat (length (https_eligible g members)) /\
  analytics_total c = Z.of_nat (length (analytics_eligible g members)) /\
  https_total c <= Z.of_nat (length members).
Proof. apply count_loop_bounds. Qed.

Lemma https_row_for_OK_domain (g : globals) (domain : string) (row : https_row) :
  https_row_for g domain = OK row -> row_domain row = domain.
Proof.
  intros H. apply https_row_for_sections in H.
  destruct H as (r & i & t & canonical & _ & _ & _ & _ & _ & _ & _ & _ & ->).
  reflexivity.
Qed.

Lemma analytics_row_for_OK_domain (g : globals) (domain : string) (row : analytics_row) :
  analytics_row_for g domain = OK row -> arow_domain row = domain.
Proof.
  intros H. unfold analytics_row_for in H. repeat step_OK H. reflexivity.
Qed.

Lemma Forall2_In_r {A B} (R : A -> B -> Prop) (xs : list A) (ys : list B) (y : B) :
  Forall2 R xs ys -> In y ys -> exists x, In x xs /\ R x y.
Proof.
  intros H. induction H as [|x y' xs ys Hxy _ IH]; intros Hin; [destruct Hin|].
  destruct Hin as [->|Hin].
  - exists x. split; [left; reflexivity | exact Hxy].
  - destruct (IH Hin) as (x' & Hx' & HR). exists x'. split; [right; exact Hx' | exact HR].
Qed.

(** What [agency_pass] appends for one agency. *)
Lemma agency_pass_OK (g : globals) (t t' : tables) (a : string) :
  agency_pass g t a = OK t' ->
  exists members c hrows arows,
    agency_data g !! a = Some members /\
    for_each (count_member g) members zero_counters = OK c /\
    t' = Tables (https_domains t) (analytics_domains t)
           (https_agencies t ++ hrows)%list (analytics_agencies t ++ arows)%list /\
    match hrows with
    | [] => https_total c <= 0
    | [row] => 0 < https_total c /\ https_rollup_of a c row
    | _ => False
    end /\
    match arows with
    | [] => analytics_total c <= 0
    | [row] => 0 < analytics_total c /\ analytics_rollup_of a c row
    | _ => False
    end.
Proof.
  intros H. unfold agency_pass in H.
  step_OK H. rename v into members. step_OK H. rename v into c.
  step_OK H. rename v into h. step_OK H. rename v into an. injection H as <-.
  apply getitem_OK in Hm.
  exists members, c, (option_list h), (option_list an).
  split; [exact Hm|]. split; [exact Hm0|]. split; [reflexivity|]. split.
  - unfold https_rollup in Hm1. destruct (Z.gtb (https_total c) 0) eqn:Hgt.
    + repeat step_OK Hm1. simpl. split; [apply Z.gtb_lt; exact Hgt|].
      unfold https_rollup_of. simpl. auto 10.
    + injection Hm1 as <-. simpl.
      destruct (Z.gtb_spec (https_total c) 0); [discriminate | lia].
  - unfold analytics_rollup in Hm2. destruct (Z.gtb (analytics_total c) 0) eqn:Hgt.
    + repeat step_OK Hm2. simpl. split; [apply Z.gtb_lt; exact Hgt|].
      unfold analytics_rollup_of. simpl. auto.
    + injection Hm2 as <-. simpl.
      destruct (Z.gtb_spec (analytics_total c) 0); [discriminate | lia].
Qed.

Lemma agency_loop (g : globals) (names : list string) :
  forall t0 t,
  for_each (agency_pass g) names t0 = OK t ->
  exists hrows arows,
    t = Tables (https_domains t0) (analytics_domains t0)
          (https_agencies t0 ++ hrows)%list (analytics_agencies t0 ++ arows)%list /\
    Forall2 (https_rollup_row g)
      (List.filter (fun a => nonempty (https_eligible g (members_of g a))) names) hrows /\
    Forall2 (analytics_rollup_row g)
      (List.filter (fun a => nonempty (analytics_eligible g (members_of g a))) names)
      arows.
Proof.
  induction names as [|a names IH]; intros t0 t H; simpl in H.
  - injection H as <-. exists [], []. rewrite !app_nil_r. destruct t0.
    split; [reflexivity|]. split; constructor.
  - step_OK H. rename v into t1.
    destruct (agency_pass_OK g t0 t1 a Hm)
      as (members & c & hrows & arows & Hmem & Hc & -> & Hh & Ha).
    destruct (IH _ _ H) as (hrows' & arows' & -> & Hhs & Has). clear IH H Hm.
    destruct (count_loop_bounds g members c Hc)
      as (_ & _ & _ & _ & _ & _ & Ht & Hat & _).
    exists (hrows ++ hrows')%list, (arows ++ arows')%list. simpl.
    rewrite <- !app_assoc. split; [reflexivity|].
    assert (Hmo : members_of g a = members) by (unfold members_of; rewrite Hmem; reflexivity).
    rewrite Hmo. split.
    + destruct hrows as [|row [|? ?]]; [| |destruct Hh].
      * rewrite Ht in Hh. destruct (https_eligible g members); [exact Hhs|].
        simpl in Hh. lia.
      * destruct Hh as [Hpos Hrow]. rewrite Ht in Hpos.
        destruct (https_eligible g members) eqn:He; [simpl in Hpos; lia|].
        simpl. constructor; [|exact Hhs].
        unfold https_rollup_row. exists c. rewrite Hmo. auto.
    + destruct arows as [|row [|? ?]]; [| |destruct Ha].
      * rewrite Hat in Ha. destruct (analytics_eligible g members); [exact Has|].
        simpl in Ha. lia.
      * destruct Ha as [Hpos Hrow]. rewrite Hat in Hpos.
        destruct (analytics_eligible g members) eqn:He; [simpl in Hpos; lia|].
        simpl. constructor; [|exact Has].
        unfold analytics_rollup_row. exists c. rewrite Hmo. auto.
Qed.

(** X14: when [process_domains] completes, the HTTPS table holds, in the
    order of [domains], the row of every domain that tests eligible for
    the HTTPS track and of no other, and the analytics table likewise;
    every domain with an analytics row also has an HTTPS row. *)
Theorem process_domains_rows (g : globals) (t : tables) :
  process_domains g = OK t ->
  Forall2 (fun d row => https_row_for g d = OK row)
    (https_eligible g (domains g)) (https_domains t) /\
  Forall2 (fun d row => analytics_row_for g d = OK row)
    (analytics_eligible g (domains g)) (analytics_domains t) /\
  map row_domain (https_domains t) = https_eligible g (domains g) /\
  map arow_domain (analytics_domains t) = analytics_eligible g (domains g) /\
  (forall arow, In arow (analytics_domains t) ->
     exists row, In row (https_domains t) /\ row_domain row = arow_domain arow).
Proof.
  intros H. unfold process_domains in H. step_OK H. rename v into t1.
  destruct (domain_loop g (domains g) _ _ Hm) as (rows & arows & -> & Hrows & Harows).
  destruct (agency_loop g (agencies g) _ _ H) as (hrows & ars & -> & _ & _).
  simpl in *. clear H Hm.
  assert (Hnames : map row_domain rows = https_eligible g (domains g)).
  { clear Harows. induction Hrows as [|d row ds rows Hd _ IH]; [reflexivity|].
    simpl. rewrite IH. f_equal.
    apply https_row_for_OK_domain in Hd. exact Hd. }
  assert (Hanames : map arow_domain arows = analytics_eligible g (domains g)).
  { clear Hrows Hnames. induction Harows as [|d row ds arows Hd _ IH]; [reflexivity|].
    simpl. rewrite IH. f_equal.
    apply analytics_row_for_OK_domain in Hd. exact Hd. }
  split; [exact Hrows|]. split; [exact Harows|]. split; [exact Hnames|].
  split; [exact Hanames|].
  intros arow Hin.
  assert (Hd : In (arow_domain arow) (analytics_eligible g (domains g))).
  { rewrite <- Hanames. apply in_map, Hin. }
  unfold analytics_eligible in Hd. apply filter_In in Hd. destruct Hd as [Hd Hyes].
  apply yes_true in Hyes.
  destruct (analytics_implies_https g _ Hyes) as [Hhttps _].
  assert (Hd' : In (arow_domain arow) (map row_domain rows)).
  { rewrite Hnames. unfold https_eligible. apply filter_In. split; [exact Hd|].
    apply yes_true, Hhttps. }
  apply in_map_iff in Hd'. destruct Hd' as (row & Heq & Hrow). eauto.
Qed.

(** X16: when [process_domains] completes, the HTTPS rollup holds, in the
    order of [agencies], one row for every agency with at least one
    HTTPS-eligible member occurrence and for no other; the row names the
    agency, counts those occurrences, and its percentages are [percent]
    of the loop's counters; likewise for the analytics rollup. *)
Theorem process_domains_rollups (g : globals) (t : tables) :
  process_domains g = OK t ->
  Forall2 (https_rollup_row g)
    (List.filter (fun a => nonempty (https_eligible g (members_of g a))) (agencies g))
    (https_agencies t) /\
  Forall2 (analytics_rollup_row g)
    (List.filter (fun a => nonempty (analytics_eligible g (members_of g a)))
       (agencies g))
    (analytics_agencies t) /\
  (forall row, In row (https_agencies t) ->
     In (ha_agency row) (agencies g) /\
     1 <= ha_number row <= Z.of_nat (length (members_of g (ha_agency row)))) /\
  (forall row, In row (analytics_agencies t) ->
     In (aa_agency row) (agencies g) /\
     1 <= aa_number row <= Z.of_nat (length (members_of g (aa_agency row)))).
Proof.
  intros H. unfold process_domains in H. step_OK H. rename v into t1.
  destruct (domain_loop g (domains g) _ _ Hm) as (rows & arows & -> & _ & _).
  destruct (agency_loop g (agencies g) _ _ H) as (hrows & ars & -> & Hh & Ha).
  simpl in *. clear H Hm.
  split; [exact Hh|]. split; [exact Ha|]. split.
  - intros row Hin. apply (Forall2_In_r _ _ _ _ Hh) in Hin.
    destruct Hin as (a & Hina & (c & Hc & Hrow)).
    apply filter_In in Hina. destruct Hina as [Hina Hne].
    destruct Hrow as (-> & -> & _).
    split; [exact Hina|].
    destruct (count_loop_bounds g _ c Hc) as (_ & _ & _ & _ & _ & _ & Ht & _ & Hle).
    rewrite Ht in *. destruct (https_eligible g (members_of g a)); [discriminate|].
    simpl length in *. lia.
  - intros row Hin. apply (Forall2_In_r _ _ _ _ Ha) in Hin.
    destruct Hin as (a & Hina & (c & Hc & Hrow)).
    apply filter_In in Hina. destruct Hina as [Hina Hne].
    destruct Hrow as (-> & -> & _).
    split; [exact Hina|].
    destruct (count_loop_bounds g _ c Hc) as (_ & _ & _ & _ & _ & Hah & Ht & Hat & Hle).
    rewrite Hat in *. destruct (analytics_eligible g (members_of g a)); [discriminate|].
    simpl length in *. lia.
Qed.

(** ** Runs without eligible domains *)

Lemma domain_loop_none (g : globals) (ds : list string) (t : tables) :
  (forall d, In d ds -> evaluating_for_https g d = OK false) ->
  for_each (domain_pass g) ds t = OK t.
Proof.
  induction ds as [|d ds IH]; intros Hds; simpl; [reflexivity|].
  unfold domain_pass at 1. rewrite (Hds d (or_introl eq_refl)). simpl.
  rewrite (not_https_not_analytics g d (Hds d (or_introl eq_refl))). simpl.
  apply IH. intros d' Hd'. apply Hds. right. exact Hd'.
Qed.

Lemma count_loop_none (g : globals) (ds : list string) (c : counters) :
  (forall d, In d ds -> evaluating_for_https g d = OK false) ->
  for_each (count_member g) ds c = OK c.
Proof.
  induction ds as [|d ds IH]; intros Hds; simpl; [reflexivity|].
  unfold count_member at 1. rewrite (Hds d (or_introl eq_refl)). simpl.
  rewrite (not_https_not_analytics g d (Hds d (or_introl eq_refl))). simpl.
  apply IH. intros d' Hd'. apply Hds. right. exact Hd'.
Qed.

Lemma agency_loop_none (g : globals) (names : list string) (t : tables) :
  registry_wf g ->
  (forall a, In a names -> In a (agencies g)) ->
  (forall d, In d (domains g) -> evaluating_for_https g d = OK false) ->
  for_each (agency_pass g) names t = OK t.
Proof.
  intros Hwf. induction names as [|a names IH]; intros Hnames Hds; simpl; [reflexivity|].
  assert (Ha : In a (agencies g)) by (apply Hnames; left; reflexivity).
  apply (wf_agency_keys g Hwf) in Ha. destruct Ha as [members Hm].
  unfold agency_pass at 1. rewrite (getitem_Some _ _ _ Hm). simpl.
  rewrite count_loop_none.
  - simpl. rewrite !app_nil_r. destruct t. simpl.
    apply IH; [|exact Hds]. intros a' Ha'. apply Hnames. right. exact Ha'.
  - intros d Hd. apply Hds. apply (proj2 (wf_members g Hwf a members Hm)), Hd.
Qed.

(** X17: when loading succeeds and no listed domain tests eligible for the
    HTTPS track, [process_domains] produces four empty tables and the run
    ends in [ZeroDivisionError]; this is the case whenever [inspect.csv]
    is empty. *)
Theorem run_without_eligible_domain
    (domains_csv inspect_csv tls_csv analytics_csv : list (list string)) (g : globals) :
  load_data domains_csv inspect_csv tls_csv analytics_csv = OK g ->
  ((forall d, In d (domains g) -> evaluating_for_https g d = OK false) ->
     process_domains g = OK empty_tables /\
     run domains_csv inspect_csv tls_csv analytics_csv = Err ZeroDivisionError) /\
  (inspect_csv = [] ->
     run domains_csv inspect_csv tls_csv analytics_csv = Err ZeroDivisionError).
Proof.
  intros Hload. pose proof (load_data_wf _ _ _ _ _ Hload) as Hwf.
  assert (Hgen : (forall d, In d (domains g) -> evaluating_for_https g d = OK false) ->
            process_domains g = OK empty_tables /\
            run domains_csv inspect_csv tls_csv analytics_csv = Err ZeroDivisionError).
  { intros Hds.
    assert (Hpd : process_domains g = OK empty_tables).
    { unfold process_domains. rewrite (domain_loop_none g _ _ Hds). simpl.
      apply agency_loop_none; auto. }
    split; [exact Hpd|]. unfold run. rewrite Hload. simpl. rewrite Hpd. reflexivity. }
  split; [exact Hgen|].
  intros ->. apply Hgen. intros d Hd.
  apply (wf_domain_keys g Hwf) in Hd. destruct Hd as [r Hr].
  assert (Hnone : records_satisfy (fun r => inspect r = None) g).
  { unfold load_data in Hload. repeat step_OK Hload. simpl in Hm0.
    injection Hm0 as <-. simpl in *.
    assert (H0 : records_satisfy (fun r => inspect r = None) v).
    { eapply (for_each_invariant (records_satisfy (fun r => inspect r = None)));
        [| |exact Hm].
      - intros st x st'. apply load_domain_row_records. reflexivity.
      - intros d' r'. simpl. rewrite lookup_empty. discriminate. }
    assert (H1 : records_satisfy (fun r => inspect r = None) v1.2).
    { eapply (for_each_invariant
                (fun st : loader => records_satisfy (fun r => inspect r = None) st.2));
        [| |exact Hm1].
      - intros st x st'. apply load_tls_row_records. auto.
      - exact H0. }
    eapply (for_each_invariant
              (fun st : loader => records_satisfy (fun r => inspect r = None) st.2));
      [| |exact Hm2].
    - intros st x st'. apply load_analytics_row_records. auto.
    - exact H1. }
  unfold evaluating_for_https. rewrite (getitem_Some _ _ _ Hr). simpl.
  rewrite (Hnone d r Hr). reflexivity.
Qed.

(** X18: [process_stats] raises as soon as one of the two per-domain
    tables is empty, with [ZeroDivisionError] when it is the HTTPS one. *)
Theorem process_stats_needs_rows (t : tables) :
  (https_domains t = [] -> process_stats t = Err ZeroDivisionError) /\
  (analytics_domains t = [] -> raises (process_stats t)).
Proof.
  split.
  - intros H. unfold process_stats. rewrite H. reflexivity.
  - intros H. unfold process_stats. apply bind_raises_k. intros s _.
    rewrite H. apply bind_raises. exists ZeroDivisionError. reflexivity.
Qed.

(** ** [percent] within the checked range *)

(** X19: for [0 <= n <= d] and [0 < d <= 200], [percent n d] lies between
    0 and 100, is 0 for [n = 0] and 100 for [n = d], and together with
    [percent (d - n) d] adds up to 99, 100 or 101; 99 occurs
    ([percent 23 40 + percent 17 40]), so the complement [100 - pct] that
    [process_stats] reports need not be the percentage of the other rows.
    A zero denominator raises [ZeroDivisionError]. *)
Theorem percent_range (n d : Z) :
  0 <= n <= d -> 0 < d <= 200 ->
  exists p q,
    percent n d = OK p /\ percent (d - n) d = OK q /\
    0 <= p <= 100 /\ (n = 0 -> p = 0) /\ (n = d -> p = 100) /\
    99 <= p + q <= 101 /\
    percent 23 40 = OK 57 /\ percent 17 40 = OK 42 /\
    percent n 0 = Err ZeroDivisionError.
Proof.
  intros Hn Hd.
  destruct (percent_table_sound 200 percent_table_200 n d Hn ltac:(simpl; lia))
    as (p & Hp & Hnear).
  destruct (percent_table_sound 200 percent_table_200 (d - n) d ltac:(lia)
              ltac:(simpl; lia)) as (q & Hq & Hnear').
  exists p, q. unfold nearest_percent in *.
  split; [exact Hp|]. split; [exact Hq|].
  split; [nia|]. split; [intros ->; nia|]. split; [intros ->; nia|].
  split; [nia|]. split; [vm_compute; reflexivity|].
  split; [vm_compute; reflexivity | reflexivity].
Qed.

(** ** Scan files without a header row *)

(** X20: a scan file whose first row is a data row of a registry domain
    makes [load_data] raise [IndexError], for there is no header to name
    its cells; this holds for [inspect.csv] and for [tls.csv]. *)
Theorem scan_file_without_header
    (domains_csv : list (list string)) (g0 : globals)
    (name : string) (cells : list string) (rest : list (list string)) :
  for_each load_domain_row domains_csv empty_globals = OK g0 ->
  str_eq (lower name) "domain" = false ->
  is_Some (domain_data g0 !! lower name) ->
  (forall tls_csv analytics_csv,
     load_data domains_csv ((name :: cells) :: rest) tls_csv analytics_csv
     = Err IndexError) /\
  (forall inspect_csv analytics_csv st,
     for_each load_inspect_row inspect_csv ([], sort_globals g0) = OK st ->
     load_data domains_csv inspect_csv ((name :: cells) :: rest) analytics_csv
     = Err IndexError).
Proof.
  intros Hloop Hhead [r Hr].
  assert (Hi : forall g r', domain_data g !! lower name = Some r' ->
            load_inspect_row ([], g) (name :: cells) = Err IndexError).
  { intros g r' Hr'. unfold load_inspect_row. simpl. rewrite Hhead. simpl.
    rewrite Hr'. reflexivity. }
  assert (Ht : forall g r', domain_data g !! lower name = Some r' ->
            load_tls_row ([], g) (name :: cells) = Err IndexError).
  { intros g r' Hr'. unfold load_tls_row. simpl. rewrite Hhead. simpl.
    rewrite Hr'. reflexivity. }
  split.
  - intros tls_csv analytics_csv. unfold load_data. rewrite Hloop.
    cbn [bind for_each]. rewrite (Hi (sort_globals g0) r Hr). reflexivity.
  - intros inspect_csv analytics_csv st Hst. unfold load_data.
    rewrite Hloop. cbn [bind]. rewrite Hst. cbn [bind for_each].
    pose proof (scan_loop_skeleton _ load_inspect_row_skeleton _ _ _ Hst)
      as (_ & _ & _ & Hrec).
    specialize (Hrec (lower name)). simpl in Hrec. rewrite Hr in Hrec.
    destruct (domain_data st.2 !! lower name) as [r'|] eqn:Hr'; [|destruct Hrec].
    rewrite (Ht st.2 r' Hr'). reflexivity.
Qed.

(** ** Agency lists *)

Lemma load_domain_row_members (g g' : globals) (row : list string) (a : string) :
  registry_wf g -> load_domain_row g row = OK g' ->
  members_of g' a
  = (members_of g a
     ++ (if accepted row && str_eq (nth 2 row "") a
         then [lower (nth 0 row "")] else []))%list.
Proof.
  intros Hwf H. unfold load_domain_row in H. unfold accepted, members_of.
  destruct row as [|name [|ty [|ag more]]]; simpl in H; try discriminate.
  { destruct (startswith (lower name) "domain"); [|discriminate].
    injection H as <-. simpl. rewrite app_nil_r. reflexivity. }
  { destruct (startswith (lower name) "domain"); [|discriminate].
    injection H as <-. simpl. rewrite app_nil_r. reflexivity. }
  simpl.
  destruct (startswith (lower name) "domain").
  { injection H as <-. simpl. rewrite app_nil_r. reflexivity. }
  destruct (str_eq ty "Federal Agency"); simpl in H |- *.
  2:{ injection H as <-. rewrite app_nil_r. reflexivity. }
  destruct (str_eq (branch_for ag) "non-federal"); simpl.
  { injection H as <-. rewrite app_nil_r. reflexivity. }
  repeat step_OK H. simpl. apply getitem_OK in Hm.
  assert (Hv : v = default [] (agency_data g !! ag)).
  { destruct (str_in ag (agencies g)) eqn:Hin.
    - rewrite Hm. reflexivity.
    - rewrite lookup_insert_eq in Hm. injection Hm as <-.
      apply str_in_false in Hin.
      destruct (agency_data g !! ag) eqn:Hag; [|reflexivity].
      exfalso. apply Hin, (wf_agency_keys g Hwf). eauto. }
  destruct (str_eq ag a) eqn:Hag.
  - apply str_eq_true in Hag. subst a. rewrite lookup_insert_eq. simpl.
    rewrite Hv. reflexivity.
  - apply str_eq_false in Hag. rewrite lookup_insert_ne by exact Hag.
    rewrite app_nil_r. destruct (str_in ag (agencies g)); [reflexivity|].
    rewrite lookup_insert_ne by exact Hag. reflexivity.
Qed.

Lemma domains_loop_members (rows : list (list string)) (a : string) :
  forall g g',
  registry_wf g -> for_each load_domain_row rows g = OK g' ->
  members_of g' a = (members_of g a ++ accepted_under a rows)%list.
Proof.
  induction rows as [|row rows IH]; intros g g' Hwf H; simpl in H.
  - injection H as <-. unfold accepted_under. simpl. rewrite app_nil_r. reflexivity.
  - step_OK H. rewrite (IH _ _ (load_domain_row_wf _ _ _ Hwf Hm) H).
    rewrite (load_domain_row_members _ _ _ a Hwf Hm), <- app_assoc. reflexivity.
Qed.

(** X21: the member list of an agency in the loaded registry is the list
    of the lower-cased domains of the accepted rows of [domains.csv] that
    name the agency, in file order and with repetitions kept. *)
Theorem agency_members_are_accepted_rows
    (domains_csv inspect_csv tls_csv analytics_csv : list (list string))
    (g : globals) (a : string) :
  load_data domains_csv inspect_csv tls_csv analytics_csv = OK g ->
  members_of g a = accepted_under a domains_csv /\
  (In a (agencies g) <-> accepted_under a domains_csv <> []).
Proof.
  intros H. pose proof (load_data_wf _ _ _ _ _ H) as Hwf.
  apply load_data_stages in H. destruct H as (g0 & Hloop & (_ & _ & Had & _)).
  assert (Hm : members_of g a = accepted_under a domains_csv).
  { unfold members_of. rewrite Had. simpl.
    exact (domains_loop_members _ a _ _ empty_globals_wf Hloop). }
  split; [exact Hm|]. rewrite <- Hm. unfold members_of.
  rewrite (wf_agency_keys g Hwf). split.
  - intros [members Hms]. rewrite Hms. simpl. exact (proj1 (wf_members g Hwf _ _ Hms)).
  - destruct (agency_data g !! a); [eauto | simpl; congruence].
Qed.

(** ** The HTTPS summary on classifier rows *)

Lemma https_enabled_presence (rows : list https_row) :
  Forall (fun row => 1 <= row_https row -> 1 <= row_https_forced row) rows ->
  https_enabled rows = count_where (fun row => Z.geb (row_https row) 1) rows.
Proof.
  intros H. rewrite https_enabled_count. unfold count_where. f_equal. f_equal.
  induction H as [|row rows Hrow _ IH]; [reflexivity|]. simpl. rewrite IH.
  destruct (Z.geb (row_https row) 1) eqn:Hp; [|reflexivity]. simpl.
  apply Z.geb_le in Hp.
  replace (Z.geb (row_https_forced row) 1) with true; [reflexivity|].
  symmetry. apply Z.geb_le. apply Hrow. lia.
Qed.

(** X22: on the table [process_domains] produces, the enforcement test of
    [process_stats] never decides: the rows it counts as active are the
    rows with presence score >= 1. *)
Theorem active_rows_are_present_rows (g : globals) (t : tables) :
  process_domains g = OK t ->
  https_enabled (https_domains t)
  = count_where (fun row => Z.geb (row_https row) 1) (https_domains t) /\
  https_summary (https_domains t)
  = (pct <- percent (count_where (fun row => Z.geb (row_https row) 1) (https_domains t))
             (Z.of_nat (length (https_domains t))) ;;
     OK (stats_table pct)).
Proof.
  intros H.
  assert (Hen : https_enabled (https_domains t)
                = count_where (fun row => Z.geb (row_https row) 1) (https_domains t)).
  { apply https_enabled_presence.
    unfold process_domains in H. step_OK H. rename v into t1.
    destruct (domain_loop g (domains g) _ _ Hm) as (rows & arows & -> & Hrows & _).
    destruct (agency_loop g (agencies g) _ _ H) as (hrows & ars & -> & _ & _).
    simpl. clear H Hm.
    induction Hrows as [|d row ds rows Hd _ IH]; constructor; [|exact IH].
    intros Hp. apply https_row_for_OK in Hd.
    destruct Hd as (r & i & tp & _ & _ & _ & Hbeh & _).
    apply (behavior_of_present _ _ _ Hbeh). lia. }
  split; [exact Hen|]. unfold https_summary. rewrite Hen. reflexivity.
Qed.

End Classifier.

(** * The properties on the sample records

    The sample records are ASCII text; they are run with [ascii_int]. *)

#[global] Existing Instance ascii_python.

Lemma scores_in_range_witness :
  let i := hsts_inspect "False" "True" "31536000" in
  let g := one_domain (Some i) (Some (tls_fields "A-")) None in
  let row := HttpsRow "a.gov" "https://a.gov" "NASA" 2 3 2 (Some 31536000) 4
               (Some 2) (Some "SHA256withRSA") (Some false) (Some false) (Some true) in
  https_row_for g "a.gov" = OK row /\
  (In (row_https row) [-1; 0; 1; 2] /\
   In (row_https_forced row) [0; 1; 2; 3] /\
   (row_https row <= 0 -> row_https_forced row = 0) /\
   In (row_hsts row) [-1; 0; 1; 2; 3] /\
   (row_https row <= 0 -> row_hsts row = -1) /\
   In (row_grade row) [-1; 0; 1; 2; 3; 4; 5; 6]).
Proof.
  intros i g row.
  assert (H : https_row_for g "a.gov" = OK row) by (vm_compute; reflexivity).
  split; [exact H|]. exact (scores_in_range g "a.gov" row H).
Defined.


(** Valid HTTPS, HSTS on, not preload-ready, and an empty max-age. *)
Lemma empty_max_age_breaks_ladder_witness :
  let i := hsts_inspect "False" "True" "" in
  let g := one_domain (Some i) None None in
  let r := DomainRec "executive" "NASA" (Some i) None None in
  (evaluating_for_https g "a.gov" = OK true /\
   domain_data g !! "a.gov" = Some r /\ inspect r = Some i /\
   i !! "Canonical" = Some "https://a.gov" /\
   https_of i = OK 2 /\ 0 < 2 /\ behavior_of i 2 = OK 3 /\
   i !! "HSTS" = Some "True" /\ "True" <> "False" /\
   i !! "HSTS Preload Ready" = Some "False" /\ "False" <> "True" /\
   i !! "HSTS Max Age" = Some "" /\ In "a.gov" (domains g)) /\
  https_row_for g "a.gov" = Err TypeError /\
  raises (process_domains g).
Proof.
  intros i g r.
  assert (H1 : evaluating_for_https g "a.gov" = OK true) by reflexivity.
  assert (H2 : domain_data g !! "a.gov" = Some r) by reflexivity.
  assert (H3 : inspect r = Some i) by reflexivity.
  assert (H4 : i !! "Canonical" = Some "https://a.gov") by reflexivity.
  assert (H5 : https_of i = OK 2) by reflexivity.
  assert (H6 : 0 < 2) by lia.
  assert (H7 : behavior_of i 2 = OK 3) by reflexivity.
  assert (H8 : i !! "HSTS" = Some "True") by reflexivity.
  assert (H9 : "True" <> "False") by discriminate.
  assert (H10 : i !! "HSTS Preload Ready" = Some "False") by reflexivity.
  assert (H11 : "False" <> "True") by discriminate.
  assert (H12 : i !! "HSTS Max Age" = Some "") by reflexivity.
  assert (H13 : In "a.gov" (domains g)) by (simpl; auto).
  split; [auto 20|].
  destruct (empty_max_age_breaks_ladder g "a.gov" r i "https://a.gov" "True" "False"
              2 3 H1 H2 H3 H4 H5 H6 H7 H8 H9 H10 H11 H12)
    as (_ & _ & Hrow & Hrun).
  split; [exact Hrow | exact (proj1 (Hrun H13))].
Defined.

(** The same record read from the scan files: the run stops with
    [TypeError] and writes nothing. *)
Example empty_max_age_stops_the_run :
  run domains_csv_sample
      [ inspect_header;
        [ "a.gov"; "https://a.gov"; "True"; "False"; "False"; "True"; "False";
          "True"; "True"; "True"; "False"; "True"; "" ] ]
      [ tls_header ] [ analytics_header ]
  = Err TypeError.
Proof. vm_compute. reflexivity. Qed.

(** Scenario D: preload-ready with an empty max-age scores 3. *)
Example preload_overrides_empty_max_age :
  exists row,
    https_row_for (one_domain (Some (hsts_inspect "True" "False" "")) None None) "a.gov"
      = OK row /\
    row_hsts row = 3 /\ row_hsts_age row = None.
Proof. eexists. split; [vm_compute; reflexivity|]. split; reflexivity. Qed.

(** C2, as stated, fails: a max-age cell that [int] rejects stops the
    classification with [ValueError]; no row, and no [None] age, results. *)
Lemma malformed_max_age_raises :
  let i := hsts_inspect "False" "True" "abc" in
  let g := one_domain (Some i) None None in
  evaluating_for_https g "a.gov" = OK true /\
  i !! "HSTS" = Some "True" /\
  i !! "HSTS Max Age" = Some "abc" /\
  py_int "abc" = Err (ValueError "abc") /\
  https_row_for g "a.gov" = Err (ValueError "abc").
Proof. vm_compute. repeat split. Qed.

(** Scenario D again, through the amended statement. *)
Lemma max_age_absent_or_rejected_witness :
  let i := hsts_inspect "True" "False" "" in
  let g := one_domain (Some i) None None in
  let r := DomainRec "executive" "NASA" (Some i) None None in
  (evaluating_for_https g "a.gov" = OK true /\
   domain_data g !! "a.gov" = Some r /\ inspect r = Some i /\
   i !! "HSTS" = Some "True" /\ i !! "HSTS Max Age" = Some "") /\
  hsts_age_of i = OK None /\
  exists row,
    https_row_for g "a.gov" = OK row /\ row_hsts_age row = None /\ row_hsts row = 3.
Proof.
  intros i g r.
  assert (H1 : evaluating_for_https g "a.gov" = OK true) by reflexivity.
  assert (H2 : domain_data g !! "a.gov" = Some r) by reflexivity.
  assert (H3 : inspect r = Some i) by reflexivity.
  assert (H4 : i !! "HSTS" = Some "True") by reflexivity.
  assert (H5 : i !! "HSTS Max Age" = Some "") by reflexivity.
  split; [auto 10|].
  destruct (proj1 (max_age_absent_or_rejected g "a.gov" r i "" H1 H2 H3 H4 H5) eq_refl)
    as (Hage & _ & _ & _ & Hrow).
  split; [exact Hage|].
  apply (Hrow "https://a.gov" 2 3 no_tls); try reflexivity.
  right. reflexivity.
Defined.

(** C8, as stated, fails: a downgrading domain is scored, with grade -1,
    although its tls record carries the unknown grade ["Z"]; the run
    completes. *)
Lemma unknown_grade_ignored_without_https :
  exists t s row,
    run domains_csv_sample
        [ inspect_header;
          [ "a.gov"; "https://a.gov"; "True"; "False"; "True"; "True"; "False";
            "True"; "True"; "True"; "False"; "True"; "31536000" ] ]
        [ tls_header;
          [ "a.gov"; "Z"; "2"; "SHA256withRSA"; "False"; "False"; "True" ] ]
        [ analytics_header; ["a.gov"; "True"] ]
      = OK (t, s) /\
    https_domains t = [row] /\ row_domain row = "a.gov" /\
    row_https row = 0 /\ row_grade row = -1 /\
    ~ In "Z" grade_letters.
Proof.
  eexists _, _, _. split; [vm_compute; reflexivity|].
  split; [reflexivity|]. split; [reflexivity|]. split; [reflexivity|].
  split; [reflexivity|].
  simpl. intros [H|[H|[H|[H|[H|[H|[H|[]]]]]]]]; discriminate.
Qed.

Lemma unknown_grade_raises_witness :
  let i := hsts_inspect "False" "True" "31536000" in
  let t := tls_fields "Z" in
  let g := one_domain (Some i) (Some t) None in
  let r := DomainRec "executive" "NASA" (Some i) (Some t) None in
  (evaluating_for_https g "a.gov" = OK true /\
   domain_data g !! "a.gov" = Some r /\ inspect r = Some i /\
   tls r = Some t /\ t !! "Grade" = Some "Z" /\
   ~ In "Z" grade_letters /\ https_of i = OK 2 /\ 0 < 2) /\
  raises (https_row_for g "a.gov").
Proof.
  intros i t g r.
  assert (H1 : evaluating_for_https g "a.gov" = OK true) by reflexivity.
  assert (H2 : domain_data g !! "a.gov" = Some r) by reflexivity.
  assert (H3 : inspect r = Some i) by reflexivity.
  assert (H4 : tls r = Some t) by reflexivity.
  assert (H5 : t !! "Grade" = Some "Z") by reflexivity.
  assert (H6 : ~ In "Z" grade_letters)
    by (simpl; intros [H|[H|[H|[H|[H|[H|[H|[]]]]]]]]; discriminate).
  assert (H7 : https_of i = OK 2) by reflexivity.
  assert (H8 : 0 < 2) by lia.
  split; [auto 10|].
  exact (proj1 (proj1 (unknown_grade_raises g "a.gov" r i t "Z" 2
                         H1 H2 H3 H4 H5 H6 H7) H8)).
Defined.

Lemma agency_rollup_witness :
  let i := hsts_inspect "False" "True" "31536000" in
  let g := one_domain (Some i) (Some (tls_fields "A-")) None in
  let row := HttpsRow "a.gov" "https://a.gov" "NASA" 2 3 2 (Some 31536000) 4
               (Some 2) (Some "SHA256withRSA") (Some false) (Some false) (Some true) in
  (agency_data g !! "NASA" = Some ["a.gov"] /\
   Forall2 (https_occurrence g) ["a.gov"] [Some row] /\
   Forall2 (analytics_occurrence g) ["a.gov"] [None] /\
   percent 1 1 = OK 100) /\
  agency_pass g empty_tables "NASA"
  = OK (Tables [] [] [HttpsAgencyRow "NASA" 1 100 100 100 100] []).
Proof.
  intros i g row.
  assert (H1 : agency_data g !! "NASA" = Some ["a.gov"]) by reflexivity.
  assert (H2 : Forall2 (https_occurrence g) ["a.gov"] [Some row]).
  { constructor; [|constructor]. split; vm_compute; reflexivity. }
  assert (H3 : Forall2 (analytics_occurrence g) ["a.gov"] [None]).
  { constructor; [|constructor]. vm_compute. reflexivity. }
  assert (H4 : percent 1 1 = OK 100) by (vm_compute; reflexivity).
  split; [auto|].
  apply (agency_rollup g empty_tables "NASA" ["a.gov"] [Some row] [None]
           100 100 100 100 0 H1 H2 H3).
  - intros _. repeat split; exact H4.
  - intros H. vm_compute in H. discriminate.
Defined.

(** ** The statements above on the sample files *)

Lemma sample_load :
  load_data domains_csv_sample sample_inspect_csv sample_tls_csv sample_analytics_csv
  = OK sample_registry.
Proof. vm_compute. reflexivity. Qed.

Lemma sample_process : process_domains sample_registry = OK sample_tables.
Proof. vm_compute. reflexivity. Qed.

Lemma load_data_sorted_witness :
  load_data domains_csv_sample sample_inspect_csv sample_tls_csv sample_analytics_csv
  = OK sample_registry /\
  ascending (domains sample_registry).
Proof.
  split; [exact sample_load|].
  exact (proj1 (load_data_sorted _ _ _ _ _ sample_load)).
Defined.

Lemma load_data_registry_witness :
  load_data domains_csv_sample sample_inspect_csv sample_tls_csv sample_analytics_csv
  = OK sample_registry /\
  (forall d, In d (domains sample_registry)
             <-> is_Some (domain_data sample_registry !! d)).
Proof.
  split; [exact sample_load|].
  exact (proj1 (load_data_registry _ _ _ _ _ sample_load)).
Defined.

Lemma scan_files_only_attach_witness :
  (load_data domains_csv_sample sample_inspect_csv sample_tls_csv sample_analytics_csv
   = OK sample_registry /\
   load_data domains_csv_sample [] [] [] = OK (one_domain None None None)) /\
  domains (one_domain None None None) = domains sample_registry.
Proof.
  assert (H : load_data domains_csv_sample [] [] [] = OK (one_domain None None None))
    by (vm_compute; reflexivity).
  split; [split; [exact sample_load | exact H]|].
  exact (proj1 (scan_files_only_attach _ _ _ _ _ _ _ _ _ sample_load H)).
Defined.

Lemma load_data_keys_witness :
  let r := DomainRec "executive" "NASA" (Some (hsts_inspect "False" "True" "31536000"))
             (Some (tls_fields "A-")) (Some (analytics_fields "True")) in
  (load_data domains_csv_sample sample_inspect_csv sample_tls_csv sample_analytics_csv
   = OK sample_registry /\
   domain_data sample_registry !! "a.gov" = Some r) /\
  lower "a.gov" = "a.gov".
Proof.
  intros r.
  assert (H : domain_data sample_registry !! "a.gov" = Some r) by reflexivity.
  split; [split; [exact sample_load | exact H]|].
  exact (proj1 (load_data_keys _ _ _ _ _ "a.gov" r sample_load H)).
Defined.

Lemma load_domain_row_changes_witness :
  load_domain_row empty_globals ["a.gov"; "Federal Agency"; "NASA"]
  = OK (one_domain None None None) /\
  (one_domain None None None <> empty_globals <->
     startswith (lower "a.gov") "domain" = false /\
     "Federal Agency" = "Federal Agency" /\ "NASA" <> "Non-Federal Agency").
Proof.
  assert (H : load_domain_row empty_globals ["a.gov"; "Federal Agency"; "NASA"]
              = OK (one_domain None None None)) by (vm_compute; reflexivity).
  split; [exact H|].
  exact (load_domain_row_changes empty_globals _ "a.gov" "Federal Agency" "NASA" [] H).
Defined.

Lemma fill_row_dict_witness :
  (length ["a.gov"; "True"] <= length analytics_header)%nat /\
  exists d, fill_row analytics_header 0 ["a.gov"; "True"] ∅ = OK d.
Proof.
  assert (H : (length ["a.gov"; "True"] <= length analytics_header)%nat)
    by (simpl; lia).
  split; [exact H|].
  exact (proj1 (fill_row_dict analytics_header ["a.gov"; "True"]) H).
Defined.

Lemma analytics_eligible_is_https_eligible_witness :
  evaluating_for_analytics sample_registry "a.gov" = OK true /\
  evaluating_for_https sample_registry "a.gov" = OK true.
Proof.
  assert (H : evaluating_for_analytics sample_registry "a.gov" = OK true)
    by reflexivity.
  split; [exact H|].
  exact (proj1 (proj1 (analytics_eligible_is_https_eligible sample_registry "a.gov") H)).
Defined.

Lemma row_scores_cohere_witness :
  https_row_for sample_registry "a.gov" = OK sample_row /\
  row_domain sample_row = "a.gov".
Proof.
  assert (H : https_row_for sample_registry "a.gov" = OK sample_row)
    by (vm_compute; reflexivity).
  split; [exact H|].
  exact (proj1 (row_scores_cohere sample_registry "a.gov" sample_row H)).
Defined.

Lemma row_tls_part_witness :
  https_row_for sample_registry "a.gov" = OK sample_row /\
  (row_grade sample_row = -1 \/ 0 < row_https sample_row).
Proof.
  assert (H : https_row_for sample_registry "a.gov" = OK sample_row)
    by (vm_compute; reflexivity).
  split; [exact H|].
  destruct (row_tls_part sample_registry "a.gov" sample_row H) as [[Hg _]|[Hp _]];
    [left; exact Hg | right; exact Hp].
Defined.

Lemma presence_score_witness :
  let i := hsts_inspect "False" "True" "31536000" in
  https_of i = OK 2 /\
  exists downgrades,
    i !! "Downgrades HTTPS" = Some downgrades /\
    (2 = 0 <-> downgrades = "True") /\
    (2 = 2 <-> downgrades <> "True" /\ i !! "Valid HTTPS" = Some "True") /\
    (2 = 1 <->
       downgrades <> "True" /\
       (exists valid, i !! "Valid HTTPS" = Some valid /\ valid <> "True") /\
       i !! "HTTPS Bad Chain" = Some "True").
Proof.
  intros i. assert (H : https_of i = OK 2) by reflexivity.
  split; [exact H|]. exact (presence_score i 2 H).
Defined.

Lemma enforcement_score_witness :
  let i := hsts_inspect "False" "True" "31536000" in
  (behavior_of i 2 = OK 3 /\ 0 < 2) /\
  exists strictly, i !! "Strictly Forces HTTPS" = Some strictly.
Proof.
  intros i. assert (H : behavior_of i 2 = OK 3) by reflexivity.
  assert (H2 : 0 < 2) by lia.
  split; [auto|].
  destruct (enforcement_score i 2 3 H H2) as (strictly & Hs & _).
  exists strictly. exact Hs.
Defined.

Lemma downgrade_row_witness :
  let i := inspect_fields "True" "False" "True" "True" "False" "True" "True"
             "True" "True" "True" "" in
  let r := DomainRec "executive" "NASA" (Some i) (Some (tls_fields "A")) None in
  let g := one_domain (Some i) (Some (tls_fields "A")) None in
  (domain_data g !! "a.gov" = Some r /\ inspect r = Some i /\
   i !! "Canonical" = Some "https://a.gov" /\
   i !! "Downgrades HTTPS" = Some "True" /\
   hsts_age_of i = OK None) /\
  https_row_for g "a.gov"
  = OK (HttpsRow "a.gov" "https://a.gov" "NASA" 0 0 (-1) None (-1)
          None None None None None).
Proof.
  intros i r g.
  assert (H1 : domain_data g !! "a.gov" = Some r) by reflexivity.
  assert (H2 : inspect r = Some i) by reflexivity.
  assert (H3 : i !! "Canonical" = Some "https://a.gov") by reflexivity.
  assert (H4 : i !! "Downgrades HTTPS" = Some "True") by reflexivity.
  assert (H5 : hsts_age_of i = OK None) by reflexivity.
  split; [auto 10|].
  exact (downgrade_row g "a.gov" r i "https://a.gov" None H1 H2 H3 H4 H5).
Defined.

Lemma analytics_row_content_witness :
  evaluating_for_analytics sample_registry "a.gov" = OK true /\
  exists r i a,
    domain_data sample_registry !! "a.gov" = Some r /\
    inspect r = Some i /\ analytics r = Some a.
Proof.
  assert (H : evaluating_for_analytics sample_registry "a.gov" = OK true)
    by reflexivity.
  split; [exact H|].
  destruct (analytics_row_content sample_registry "a.gov" H)
    as (r & i & a & Hr & Hi & Ha & _).
  exists r, i, a. auto.
Defined.

Lemma process_domains_rows_witness :
  process_domains sample_registry = OK sample_tables /\
  map row_domain (https_domains sample_tables)
  = https_eligible sample_registry (domains sample_registry).
Proof.
  split; [exact sample_process|].
  exact (proj1 (proj2 (proj2 (process_domains_rows _ _ sample_process)))).
Defined.

Lemma counters_bounded_witness :
  for_each (count_member sample_registry) ["a.gov"] zero_counters
  = OK (Counters 1 1 1 1 1 1 1) /\
  0 <= 1 <= 1.
Proof.
  assert (H : for_each (count_member sample_registry) ["a.gov"] zero_counters
              = OK (Counters 1 1 1 1 1 1 1)) by (vm_compute; reflexivity).
  split; [exact H|].
  exact (proj1 (counters_bounded sample_registry ["a.gov"] _ H)).
Defined.

Lemma process_domains_rollups_witness :
  process_domains sample_registry = OK sample_tables /\
  (forall row, In row (https_agencies sample_tables) ->
     In (ha_agency row) (agencies sample_registry) /\
     1 <= ha_number row
       <= Z.of_nat (length (members_of sample_registry (ha_agency row)))).
Proof.
  split; [exact sample_process|].
  exact (proj1 (proj2 (proj2 (process_domains_rollups _ _ sample_process)))).
Defined.

Lemma run_without_eligible_domain_witness :
  load_data domains_csv_sample [] sample_tls_csv sample_analytics_csv
  = OK (one_domain None (Some (tls_fields "A-")) None) /\
  run domains_csv_sample [] sample_tls_csv sample_analytics_csv
  = Err ZeroDivisionError.
Proof.
  assert (H : load_data domains_csv_sample [] sample_tls_csv sample_analytics_csv
              = OK (one_domain None (Some (tls_fields "A-")) None))
    by (vm_compute; reflexivity).
  split; [exact H|].
  exact (proj2 (run_without_eligible_domain _ _ _ _ _ H) eq_refl).
Defined.

Lemma process_stats_needs_rows_witness :
  https_domains empty_tables = [] /\
  process_stats empty_tables = Err ZeroDivisionError.
Proof.
  split; [reflexivity|].
  exact (proj1 (process_stats_needs_rows empty_tables) eq_refl).
Defined.

Lemma percent_range_witness :
  (0 <= 7 <= 9 /\ 0 < 9 <= 200) /\
  exists p q, percent 7 9 = OK p /\ percent (9 - 7) 9 = OK q /\ 0 <= p <= 100.
Proof.
  assert (H1 : 0 <= 7 <= 9) by lia. assert (H2 : 0 < 9 <= 200) by lia.
  split; [auto|].
  destruct (percent_range 7 9 H1 H2) as (p & q & Hp & Hq & Hr & _).
  exists p, q. auto.
Defined.

Lemma scan_file_without_header_witness :
  (for_each load_domain_row domains_csv_sample empty_globals
   = OK (one_domain None None None) /\
   str_eq (lower "a.gov") "domain" = false /\
   is_Some (domain_data (one_domain None None None) !! lower "a.gov")) /\
  (forall tls_csv analytics_csv,
     load_data domains_csv_sample [["a.gov"; "True"]] tls_csv analytics_csv
     = Err IndexError).
Proof.
  assert (H1 : for_each load_domain_row domains_csv_sample empty_globals
               = OK (one_domain None None None)) by (vm_compute; reflexivity).
  assert (H2 : str_eq (lower "a.gov") "domain" = false) by reflexivity.
  assert (H3 : is_Some (domain_data (one_domain None None None) !! lower "a.gov"))
    by (eexists; reflexivity).
  split; [auto|].
  exact (proj1 (scan_file_without_header domains_csv_sample _ "a.gov" ["True"] []
                  H1 H2 H3)).
Defined.

Lemma agency_members_are_accepted_rows_witness :
  load_data domains_csv_sample sample_inspect_csv sample_tls_csv sample_analytics_csv
  = OK sample_registry /\
  members_of sample_registry "NASA" = accepted_under "NASA" domains_csv_sample.
Proof.
  split; [exact sample_load|].
  exact (proj1 (agency_members_are_accepted_rows _ _ _ _ _ "NASA" sample_load)).
Defined.

Lemma active_rows_are_present_rows_witness :
  process_domains sample_registry = OK sample_tables /\
  https_enabled (https_domains sample_tables)
  = count_where (fun row => Z.geb (row_https row) 1) (https_domains sample_tables).
Proof.
  split; [exact sample_process|].
  exact (proj1 (active_rows_are_present_rows _ _ sample_process)).
Defined.
